(** * kuber-code-s3: upload / replace / delete orchestration over two stores

    A shallow embedding of the file-storage service:
    - [internal/service/file_service.go]  (UploadFile, DeleteFile, ReplaceFile,
      GetFileMetadata, saveUploadedFile),
    - [internal/repository/minio_repository.go] and [mongo_repository.go],
    - the HTTP handlers (package [handler]) and the [apiKeyAuth] middleware of
      [main.go].

    The object store, the document store and the local file system are finite
    maps; every call that leaves the process (MinIO client, MongoDB driver,
    [os], [io]) is a primitive of a small state-and-error monad that consults a
    fault oracle and writes one entry into a call log. *)

From Stdlib Require Import ZArith Ascii Strings.Byte.
From stdpp Require Import gmap strings list.

Open Scope string_scope.

(** ** Go library functions on strings and paths *)

Module GoString.

(** [s[i:]] for a Go string. *)
Fixpoint drop_str (n : nat) (s : string) : string :=
  match n, s with
  | O, _ => s
  | S n', String _ s' => drop_str n' s'
  | S _, EmptyString => EmptyString
  end.

(** [s[:i]] for a Go string. *)
Fixpoint take_str (n : nat) (s : string) : string :=
  match n, s with
  | S n', String c s' => String c (take_str n' s')
  | _, _ => EmptyString
  end.

(** [strings.HasSuffix]:
    [len(s) >= len(suffix) && s[len(s)-len(suffix):] == suffix]. *)
Definition strings_HasSuffix (s suffix : string) : bool :=
  (String.length suffix <=? String.length s)%nat
  && String.eqb (drop_str (String.length s - String.length suffix) s) suffix.

(** [strings.TrimSuffix]: [s[:len(s)-len(suffix)]] when [s] ends in [suffix],
    [s] itself otherwise. *)
Definition strings_TrimSuffix (s suffix : string) : string :=
  if strings_HasSuffix s suffix
  then take_str (String.length s - String.length suffix) s
  else s.

(** [strings.ToLower] on the bytes 'A'..'Z'; other bytes are kept.  (Go also
    maps non-ASCII upper-case runes; the allow-lists below are ASCII.) *)
Definition lower_ascii (c : ascii) : ascii :=
  let n := nat_of_ascii c in
  if (65 <=? n)%nat && (n <=? 90)%nat then ascii_of_nat (n + 32) else c.

Fixpoint strings_ToLower (s : string) : string :=
  match s with
  | EmptyString => EmptyString
  | String c s' => String (lower_ascii c) (strings_ToLower s')
  end.

(** What the backwards loop of [filepath.Ext] has met once it has walked over
    a suffix of the path: a dot (it returns [path[i:]]), a path separator (it
    stops and returns the empty string), or neither yet. *)
Inductive ext_scan_result :=
| ExtFound (ext : string)
| ExtSeparator
| ExtContinue.

(** [filepath.Ext]:
<<
    for i := len(path) - 1; i >= 0 && !os.IsPathSeparator(path[i]); i-- {
        if path[i] == '.' { return path[i:] }
    }
    return ""
>>
    The loop runs from the last byte to the first, so the scan of [c :: rest]
    is the scan of [rest] continued with [c]. *)
Fixpoint ext_scan (path : string) : ext_scan_result :=
  match path with
  | EmptyString => ExtContinue
  | String c rest =>
      match ext_scan rest with
      | ExtFound e => ExtFound e
      | ExtSeparator => ExtSeparator
      | ExtContinue =>
          if Ascii.eqb c "." then ExtFound (String c rest)
          else if Ascii.eqb c "/" then ExtSeparator
          else ExtContinue
      end
  end.

Definition filepath_Ext (path : string) : string :=
  match ext_scan path with
  | ExtFound e => e
  | _ => EmptyString
  end.

(** [filepath.Join(dir, name)] for a clean [dir] and a [name] that is one
    ordinary path element (as [uuid + ext] is): [Clean] changes nothing. *)
Definition filepath_Join (dir name : string) : string := dir ++ "/" ++ name.

(** The loop of [filepath.Dir]: the bytes before the last separator, when
    there is one. *)
Fixpoint dir_scan (path : string) : option string :=
  match path with
  | EmptyString => None
  | String c rest =>
      match dir_scan rest with
      | Some d => Some (String c d)
      | None => if Ascii.eqb c "/" then Some EmptyString else None
      end
  end.

(** [filepath.Dir] on a clean path: all but the last element. *)
Definition filepath_Dir (path : string) : string :=
  match dir_scan path with
  | None => "."
  | Some EmptyString => "/"
  | Some d => d
  end.

End GoString.
Export GoString.

(** ** Errors *)

Module GoError.

(** Error values that come from outside the repository: the MongoDB driver,
    the MinIO client, [os], [io] and [mime/multipart]. *)
Inductive driver_error :=
| mongo_ErrNoDocuments                    (* mongo.ErrNoDocuments *)
| minio_ErrorResponse (Code : string)     (* minio.ErrorResponse{Code: ...} *)
| io_EOF                                  (* io.EOF *)
| other_error (msg : string).             (* any other error value *)

(** Go [error] values the service handles: driver errors, the sentinels the
    packages declare with [errors.New] / [fmt.Errorf], and wrapping with
    [fmt.Errorf("<msg>: %w", err)]. *)
Inductive error :=
| Driver (e : driver_error)
| repository_ErrDocumentNotFound          (* "document not found" *)
| repository_ErrFileNotFound              (* "file not found in storage" *)
| service_ErrFileNotFound                 (* "file not found" *)
| service_ErrInvalidFile                  (* "invalid file" *)
| fmt_Errorf (msg : string) (wrapped : error).

#[export] Instance driver_error_eq_dec : EqDecision driver_error.
Proof. solve_decision. Defined.

#[export] Instance error_eq_dec : EqDecision error.
Proof. solve_decision. Defined.

(** [errors.Is]: walks the [Unwrap] chain comparing with [==]. *)
Fixpoint errors_Is (err target : error) : bool :=
  if decide (err = target) then true
  else match err with
       | fmt_Errorf _ wrapped => errors_Is wrapped target
       | _ => false
       end.

(** A Go [(T, error)] result. *)
Inductive result (A : Type) :=
| Ok (a : A)
| Err (e : error).
Arguments Ok {A} a.
Arguments Err {A} e.

Definition err_of {A} (r : result A) : option error :=
  match r with
  | Ok _ => None
  | Err e => Some e
  end.

End GoError.
Export GoError.

(** ** Data model *)

(** [http.Header] / [textproto.MIMEHeader]: canonical key to values. *)
Abbreviation HttpHeader := (gmap string (list string)).

(** [Header.Get]: the first value of the key, or the empty string. *)
Definition Header_Get (h : HttpHeader) (key : string) : string :=
  match h !! key with
  | Some (v :: _) => v
  | _ => ""
  end.

(** [multipart.FileHeader], with the bytes [Open] gives access to. *)
Record FileHeader := {
  Filename : string;
  Header   : HttpHeader;
  Size     : Z;
  content  : list byte
}.

(** [models.FileMetadata]. *)
Record FileMetadata := {
  ID           : string;
  OriginalName : string;
  FileSize     : Z;
  ContentType  : string;
  BucketName   : string;
  UploadDate   : Z;
  URL          : string
}.

(** An object of the bucket. *)
Record Object := {
  obj_data        : list byte;
  obj_contentType : string
}.

(** The state outside the process: the bucket, the [files] collection, the
    local file system, and the number of driver calls made so far. *)
Record World := {
  objects : gmap string Object;        (* bucket, by object name *)
  files   : gmap string FileMetadata;  (* collection "files", by _id *)
  disk    : gmap string (list byte);   (* local files, by path *)
  tick    : nat
}.

(** What the process cannot decide: which driver calls fail and how, the
    identifiers and times it is handed, its configuration and environment,
    and the two library classifiers the handlers call. *)
Record Env := {
  fault             : nat -> option driver_error; (* made-to-fail outcome of the n-th call *)
  uuid_at           : nat -> string;              (* uuid.New().String() *)
  time_at           : nat -> Z;                   (* time.Now() *)
  TempDir           : string;                     (* os.TempDir() *)
  Bucket            : string;                     (* MinioRepository.Bucket *)
  EndpointHost      : string;                     (* client.EndpointURL().Host *)
  environ           : gmap string string;         (* process environment *)
  DetectContentType : list byte -> string;        (* http.DetectContentType *)
  uuid_Parse        : string -> bool              (* uuid.Parse(s) succeeds *)
}.

(** Calls that leave the process. *)
Inductive Call :=
| CallOpen (filename : string)                        (* file.Open() *)
| CallRead (filename : string)                        (* src.Read(buf) *)
| CallSeek (filename : string)                        (* src.Seek(0, 0) *)
| CallMkdirAll (dir : string)                         (* os.MkdirAll *)
| CallCreate (path : string)                          (* os.Create *)
| CallCopy (path : string)                            (* io.Copy(out, src) *)
| CallRemove (path : string)                          (* os.Remove *)
| CallFPutObject (object path contentType : string)   (* client.FPutObject *)
| CallRemoveObject (object : string)                  (* client.RemoveObject *)
| CallInsertOne (doc : FileMetadata)                  (* collection.InsertOne *)
| CallFindOne (id : string)                           (* collection.FindOne *)
| CallDeleteOne (id : string)                         (* collection.DeleteOne *)
| CallFindOneAndUpdate (id : string) (doc : FileMetadata).

(** One log entry: the call and the error it returned, if any. *)
Record Event := Ev {
  ev_call : Call;
  ev_err  : option error
}.

(** ** The monad: environment, state, error, call log *)

Module Monad.

Definition M (A : Type) : Type := Env -> World -> result A * World * list Event.

Definition ret {A} (a : A) : M A := fun _ w => (Ok a, w, []).

Definition fail {A} (e : error) : M A := fun _ w => (Err e, w, []).

(** Sequencing; an error ends the sequence, as
    [if err != nil { return ..., err }] does. *)
Definition bind {A B} (m : M A) (k : A -> M B) : M B := fun env w =>
  match m env w with
  | (Ok a, w1, l1) =>
      match k a env w1 with
      | (r, w2, l2) => (r, w2, (l1 ++ l2)%list)
      end
  | (Err e, w1, l1) => (Err e, w1, l1)
  end.

(** Runs [m] and hands its [(value, err)] to the caller, for the places where
    the code inspects or discards [err] instead of returning it. *)
Definition try {A} (m : M A) : M (result A) := fun env w =>
  match m env w with
  | (r, w1, l1) => (Ok r, w1, l1)
  end.

(** [defer d] followed by the rest of the function, [body]: [d] runs when
    [body] has returned, whatever it returned, and its result is dropped. *)
Definition defer {A} (d : M unit) (body : M A) : M A := fun env w =>
  match body env w with
  | (r, w1, l1) =>
      match d env w1 with
      | (_, w2, l2) => (r, w2, (l1 ++ l2)%list)
      end
  end.

Definition ask : M Env := fun env w => (Ok env, w, []).

Definition set_tick (n : nat) (w : World) : World :=
  {| objects := objects w; files := files w; disk := disk w; tick := n |}.

Definition set_objects (o : gmap string Object) (w : World) : World :=
  {| objects := o; files := files w; disk := disk w; tick := tick w |}.

Definition set_files (f : gmap string FileMetadata) (w : World) : World :=
  {| objects := objects w; files := f; disk := disk w; tick := tick w |}.

Definition set_disk (d : gmap string (list byte)) (w : World) : World :=
  {| objects := objects w; files := files w; disk := d; tick := tick w |}.

(** A driver call: the oracle may make it fail, and then nothing else
    happens to the world; otherwise [act] is what the driver does. The call
    and its outcome are logged and the call counter advances. *)
Definition driver_call {A} (c : Call) (act : World -> result A * World) : M A :=
  fun env w =>
  let w' := set_tick (S (tick w)) w in
  match fault env (tick w) with
  | Some e => (Err (Driver e), w', [Ev c (Some (Driver e))])
  | None =>
      match act w' with
      | (r, w'') => (r, w'', [Ev c (err_of r)])
      end
  end.

End Monad.
Export Monad.

Notation "'do' x <- m ; k" := (bind m (fun x => k))
  (at level 10, x name, m at level 100, k at level 200, only parsing).

(** ** Driver calls *)

Module Drivers.

Definition keep {A} (a : A) (w : World) : result A * World := (Ok a, w).

(** [file.Open()] on the multipart part. *)
Definition multipart_Open (file : FileHeader) : M unit :=
  driver_call (CallOpen (Filename file)) (keep tt).

(** [buf := make([]byte, n); src.Read(buf)]: the buffer after the call. A
    part without bytes gives [io.EOF]. *)
Definition multipart_Read (file : FileHeader) (n : nat) : M (list byte) :=
  driver_call (CallRead (Filename file)) (fun w =>
    match content file with
    | [] => (Err (Driver io_EOF), w)
    | _ :: _ =>
        let got := take n (content file) in
        (Ok (got ++ replicate (n - length got) x00)%list, w)
    end).

(** [src.Seek(0, 0)]. *)
Definition multipart_Seek (file : FileHeader) : M unit :=
  driver_call (CallSeek (Filename file)) (keep tt).

(** [src.Close()], [out.Close()]: result dropped, nothing modelled changes. *)
Definition file_Close : M unit := ret tt.

Definition os_MkdirAll (dir : string) : M unit :=
  driver_call (CallMkdirAll dir) (keep tt).

(** [os.Create]: the file exists and is empty afterwards. *)
Definition os_Create (path : string) : M unit :=
  driver_call (CallCreate path)
    (fun w => (Ok tt, set_disk (<[path := []]> (disk w)) w)).

(** [io.Copy(out, src)]: a failed copy leaves the file as created. *)
Definition io_Copy (path : string) (data : list byte) : M unit :=
  driver_call (CallCopy path)
    (fun w => (Ok tt, set_disk (<[path := data]> (disk w)) w)).

Definition os_Remove (path : string) : M unit :=
  driver_call (CallRemove path) (fun w =>
    match disk w !! path with
    | Some _ => (Ok tt, set_disk (delete path (disk w)) w)
    | None => (Err (Driver (other_error "remove: no such file or directory")), w)
    end).

(** [client.FPutObject(ctx, bucket, objectName, filePath, opts)]: reads the
    local file and stores it under [objectName]. *)
Definition client_FPutObject (objectName filePath contentType : string) : M unit :=
  driver_call (CallFPutObject objectName filePath contentType) (fun w =>
    match disk w !! filePath with
    | Some data =>
        (Ok tt,
         set_objects (<[objectName :=
           {| obj_data := data; obj_contentType := contentType |}]> (objects w)) w)
    | None => (Err (Driver (other_error "open: no such file or directory")), w)
    end).

(** [client.RemoveObject]: when the store does not fail, the key is gone
    afterwards (removing an absent key succeeds, as in S3). A store that
    answers [NoSuchKey] is a fault [minio_ErrorResponse "NoSuchKey"]. *)
Definition client_RemoveObject (objectName : string) : M unit :=
  driver_call (CallRemoveObject objectName)
    (fun w => (Ok tt, set_objects (delete objectName (objects w)) w)).

(** [collection.InsertOne]: [_id] is unique. *)
Definition collection_InsertOne (doc : FileMetadata) : M unit :=
  driver_call (CallInsertOne doc) (fun w =>
    match files w !! ID doc with
    | Some _ => (Err (Driver (other_error "E11000 duplicate key error")), w)
    | None => (Ok tt, set_files (<[ID doc := doc]> (files w)) w)
    end).

(** [collection.FindOne(ctx, {_id: id}).Decode(&result)]. *)
Definition collection_FindOne (id : string) : M FileMetadata :=
  driver_call (CallFindOne id) (fun w =>
    match files w !! id with
    | Some doc => (Ok doc, w)
    | None => (Err (Driver mongo_ErrNoDocuments), w)
    end).

(** [collection.DeleteOne(ctx, {_id: id})]: the [DeletedCount]. *)
Definition collection_DeleteOne (id : string) : M Z :=
  driver_call (CallDeleteOne id) (fun w =>
    match files w !! id with
    | Some _ => (Ok 1%Z, set_files (delete id (files w)) w)
    | None => (Ok 0%Z, w)
    end).

(** [collection.FindOneAndUpdate(ctx, {_id: id}, {$set: ...})]: sets the six
    fields of the update, keeps [_id]. *)
Definition collection_FindOneAndUpdate (id : string) (upd : FileMetadata) : M unit :=
  driver_call (CallFindOneAndUpdate id upd) (fun w =>
    match files w !! id with
    | Some old =>
        (Ok tt,
         set_files (<[id := {| ID := ID old;
                               OriginalName := OriginalName upd;
                               FileSize := FileSize upd;
                               ContentType := ContentType upd;
                               BucketName := BucketName upd;
                               UploadDate := UploadDate upd;
                               URL := URL upd |}]> (files w)) w)
    | None => (Err (Driver mongo_ErrNoDocuments), w)
    end).

(** [uuid.New().String()], [time.Now()], [os.TempDir()], [os.Getenv]. *)
Definition uuid_New : M string := fun env w => (Ok (uuid_at env (tick w)), w, []).

Definition time_Now : M Z := fun env w => (Ok (time_at env (tick w)), w, []).

Definition os_TempDir : M string := fun env w => (Ok (TempDir env), w, []).

Definition os_Getenv (env : Env) (key : string) : string :=
  default "" (environ env !! key).

End Drivers.
Export Drivers.

(** ** internal/repository *)

Module repository.

(** [MinioRepository.UploadFile]. *)
Definition minio_UploadFile (objectName filePath contentType : string) : M string :=
  do r <- try (client_FPutObject objectName filePath contentType);
  match r with
  | Err err => fail (fmt_Errorf "upload error" err)
  | Ok _ =>
      do env <- ask;
      ret ("http://" ++ EndpointHost env ++ "/" ++ Bucket env ++ "/" ++ objectName)
  end.

(** [err.(minio.ErrorResponse)] succeeds and [Code == "NoSuchKey"]. *)
Definition is_NoSuchKey (err : error) : bool :=
  match err with
  | Driver (minio_ErrorResponse code) => String.eqb code "NoSuchKey"
  | _ => false
  end.

(** [MinioRepository.DeleteFile]. *)
Definition minio_DeleteFile (objectName : string) : M unit :=
  do r <- try (client_RemoveObject objectName);
  match r with
  | Err err =>
      if is_NoSuchKey err then fail repository_ErrFileNotFound
      else fail (fmt_Errorf "delete error" err)
  | Ok _ => ret tt
  end.

(** [MongoRepository.SaveMetadata]. *)
Definition mongo_SaveMetadata (metadata : FileMetadata) : M unit :=
  do r <- try (collection_InsertOne metadata);
  match r with
  | Err err => fail err
  | Ok _ => ret tt
  end.

(** [MongoRepository.GetMetadata]. *)
Definition mongo_GetMetadata (fileID : string) : M FileMetadata :=
  do r <- try (collection_FindOne fileID);
  match r with
  | Err err =>
      if errors_Is err (Driver mongo_ErrNoDocuments)
      then fail repository_ErrDocumentNotFound
      else fail err
  | Ok result => ret result
  end.

(** [MongoRepository.DeleteMetadata]. *)
Definition mongo_DeleteMetadata (fileID : string) : M unit :=
  do r <- try (collection_DeleteOne fileID);
  match r with
  | Err err => fail err
  | Ok DeletedCount =>
      if (DeletedCount =? 0)%Z then fail repository_ErrDocumentNotFound
      else ret tt
  end.

(** [MongoRepository.UpdateMetadata]. *)
Definition mongo_UpdateMetadata (fileID : string) (metadata : FileMetadata) : M unit :=
  do r <- try (collection_FindOneAndUpdate fileID metadata);
  match r with
  | Err err =>
      if errors_Is err (Driver mongo_ErrNoDocuments)
      then fail repository_ErrDocumentNotFound
      else fail err
  | Ok _ => ret tt
  end.

End repository.

(** ** internal/service *)

Module service.

(** [saveUploadedFile]. *)
Definition saveUploadedFile (file : FileHeader) (dst : string) : M unit :=
  do _ <- multipart_Open file;
  defer file_Close (
    do _ <- os_MkdirAll (filepath_Dir dst);
    do _ <- os_Create dst;
    defer file_Close (
      io_Copy dst (content file))).

(** [FileService.UploadFile]. *)
Definition UploadFile (file : FileHeader) : M string :=
  do fileID <- uuid_New;
  let ext := filepath_Ext (Filename file) in
  let objectName := fileID ++ ext in
  do tmp <- os_TempDir;
  let localPath := filepath_Join tmp objectName in
  do _ <- saveUploadedFile file localPath;
  defer (os_Remove localPath) (
    do url <- repository.minio_UploadFile objectName localPath
                (Header_Get (Header file) "Content-Type");
    do env <- ask;
    do now <- time_Now;
    let metadata := {| ID := fileID;
                       OriginalName := strings_TrimSuffix (Filename file) ext;
                       FileSize := Size file;
                       ContentType := Header_Get (Header file) "Content-Type";
                       BucketName := Bucket env;
                       UploadDate := now;
                       URL := url |} in
    do r <- try (repository.mongo_SaveMetadata metadata);
    match r with
    | Err err =>
        do _ <- try (repository.minio_DeleteFile objectName);
        fail err
    | Ok _ => ret url
    end).

(** [FileService.DeleteFile]. *)
Definition DeleteFile (fileID : string) : M unit :=
  do r <- try (repository.mongo_GetMetadata fileID);
  match r with
  | Err err =>
      if errors_Is err (Driver mongo_ErrNoDocuments)
      then fail service_ErrFileNotFound
      else fail err
  | Ok metadata =>
      let objectName := fileID ++ filepath_Ext (OriginalName metadata) in
      do _ <- repository.minio_DeleteFile objectName;
      repository.mongo_DeleteMetadata fileID
  end.

(** [FileService.ReplaceFile]. *)
Definition ReplaceFile (fileID : string) (newFile : FileHeader) : M string :=
  do r <- try (repository.mongo_GetMetadata fileID);
  match r with
  | Err err =>
      if errors_Is err (Driver mongo_ErrNoDocuments)
      then fail service_ErrFileNotFound
      else fail err
  | Ok oldMetadata =>
      let oldObjectName := fileID ++ filepath_Ext (OriginalName oldMetadata) in
      do _ <- repository.minio_DeleteFile oldObjectName;
      let newExt := filepath_Ext (Filename newFile) in
      let newObjectName := fileID ++ newExt in
      do tmp <- os_TempDir;
      let localPath := filepath_Join tmp newObjectName in
      do _ <- saveUploadedFile newFile localPath;
      defer (os_Remove localPath) (
        do url <- repository.minio_UploadFile newObjectName localPath
                    (Header_Get (Header newFile) "Content-Type");
        do env <- ask;
        do now <- time_Now;
        let newMetadata := {| ID := fileID;
                              OriginalName := strings_TrimSuffix (Filename newFile) newExt;
                              FileSize := Size newFile;
                              ContentType := Header_Get (Header newFile) "Content-Type";
                              BucketName := Bucket env;
                              UploadDate := now;
                              URL := url |} in
        do r <- try (repository.mongo_UpdateMetadata fileID newMetadata);
        match r with
        | Err err =>
            do _ <- try (repository.minio_DeleteFile newObjectName);
            fail err
        | Ok _ => ret url
        end)
  end.

(** [FileService.GetFileMetadata]. *)
Definition GetFileMetadata (fileID : string) : M FileMetadata :=
  repository.mongo_GetMetadata fileID.

End service.

(** ** package handler *)

Module handler.

(** The parts of [gin.Context] the handlers read. *)
Record Context := {
  Request_Header : HttpHeader;             (* c.Request.Header *)
  Params         : gmap string string;     (* c.Param *)
  Form           : gmap string FileHeader  (* c.FormFile *)
}.

Definition c_GetHeader (c : Context) (key : string) : string :=
  Header_Get (Request_Header c) key.

Definition c_Param (c : Context) (key : string) : string :=
  default "" (Params c !! key).

(** [c.FormFile(name)]; [http.ErrMissingFile] when the field is absent. *)
Definition c_FormFile (c : Context) (name : string) : result FileHeader :=
  match Form c !! name with
  | Some fh => Ok fh
  | None => Err (Driver (other_error "http: no such file"))
  end.

Inductive Body :=
| ErrorResponse (Error : string)
| SuccessResponse (URL : string)
| H (fields : list (string * string))       (* gin.H *)
| MetadataJSON (metadata : FileMetadata).

Record Response := {
  status : Z;
  body   : Body
}.

(** [c.JSON(code, obj)]. *)
Definition c_JSON (code : Z) (obj : Body) : M Response :=
  ret {| status := code; body := obj |}.

Definition StatusOK : Z := 200.
Definition StatusBadRequest : Z := 400.
Definition StatusNotFound : Z := 404.
Definition StatusInternalServerError : Z := 500.

(** Indexing a Go [map[string]bool]: [false] for a missing key. *)
Definition map_index (m : gmap string bool) (key : string) : bool :=
  default false (m !! key).

(** The two maps of [UploadFile] and the one of [ReplaceFile]. *)
Definition allowedExtensions : gmap string bool :=
  list_to_map [(".jpg", true); (".jpeg", true); (".png", true); (".mp4", true);
               (".mov", true); (".avi", true); (".mkv", true)].

Definition allowedTypes : gmap string bool :=
  list_to_map [("image/jpeg", true); ("image/png", true); ("video/mp4", true);
               ("video/quicktime", true); ("video/x-msvideo", true);
               ("video/x-matroska", true)].

Definition allowedTypes_replace : gmap string bool :=
  list_to_map [("image/jpeg", true); ("image/png", true); ("video/mp4", true)].

(** [detectContentType]. *)
Definition detectContentType (file : FileHeader) : M string :=
  do _ <- multipart_Open file;
  defer file_Close (
    do buf <- multipart_Read file 512;
    do env <- ask;
    let contentType := DetectContentType env buf in
    do _ <- multipart_Seek file;
    ret contentType).

(** [FileHandler.UploadFile]. *)
Definition UploadFile (c : Context) : M Response :=
  match c_FormFile c "file" with
  | Err _ => c_JSON StatusBadRequest (ErrorResponse "File upload error")
  | Ok file =>
      let ext := strings_ToLower (filepath_Ext (Filename file)) in
      if negb (map_index allowedExtensions ext)
      then c_JSON StatusBadRequest (ErrorResponse "Unsupported file extension")
      else
        do r <- try (detectContentType file);
        match r with
        | Err _ => c_JSON StatusBadRequest (ErrorResponse "Invalid file content")
        | Ok contentType =>
            if negb (map_index allowedTypes contentType)
            then c_JSON StatusBadRequest (ErrorResponse "Unsupported file type")
            else
              do r <- try (service.UploadFile file);
              match r with
              | Err _ =>
                  c_JSON StatusInternalServerError
                         (ErrorResponse "Failed to process file")
              | Ok url => c_JSON StatusOK (SuccessResponse url)
              end
        end
  end.

(** [FileHandler.DeleteFile]. *)
Definition DeleteFile (c : Context) : M Response :=
  let fileID := c_Param c "id" in
  do env <- ask;
  if negb (uuid_Parse env fileID)
  then c_JSON StatusBadRequest (ErrorResponse "Invalid file ID format")
  else
    do r <- try (service.DeleteFile fileID);
    match r with
    | Err err =>
        if decide (err = service_ErrFileNotFound)
        then c_JSON StatusNotFound (ErrorResponse "File not found")
        else c_JSON StatusInternalServerError (ErrorResponse "Failed to delete file")
    | Ok _ =>
        c_JSON StatusOK (SuccessResponse ("File " ++ fileID ++ " deleted"))
    end.

(** [FileHandler.ReplaceFile]. *)
Definition ReplaceFile (c : Context) : M Response :=
  let fileID := c_Param c "id" in
  do env <- ask;
  if negb (uuid_Parse env fileID)
  then c_JSON StatusBadRequest (ErrorResponse "Invalid file ID format")
  else
    match c_FormFile c "file" with
    | Err _ => c_JSON StatusBadRequest (ErrorResponse "File upload error")
    | Ok file =>
        do r <- try (detectContentType file);
        match r with
        | Err _ => c_JSON StatusBadRequest (ErrorResponse "Invalid file content")
        | Ok contentType =>
            if negb (map_index allowedTypes_replace contentType)
            then c_JSON StatusBadRequest (ErrorResponse "Unsupported file type")
            else
              do r <- try (service.ReplaceFile fileID file);
              match r with
              | Err err =>
                  if decide (err = service_ErrFileNotFound)
                  then c_JSON StatusNotFound (ErrorResponse "File not found")
                  else c_JSON StatusInternalServerError
                              (ErrorResponse "Failed to replace file")
              | Ok url => c_JSON StatusOK (SuccessResponse url)
              end
        end
    end.

(** [FileHandler.GetFileMetadata]. *)
Definition GetFileMetadata (c : Context) : M Response :=
  let fileID := c_Param c "id" in
  do env <- ask;
  if negb (uuid_Parse env fileID)
  then c_JSON StatusBadRequest (ErrorResponse "Invalid file ID format")
  else
    do r <- try (service.GetFileMetadata fileID);
    match r with
    | Err err =>
        if decide (err = service_ErrFileNotFound)
        then c_JSON StatusNotFound (ErrorResponse "File not found")
        else c_JSON StatusInternalServerError
                    (ErrorResponse "Failed to get file metadata")
    | Ok metadata => c_JSON StatusOK (MetadataJSON metadata)
    end.

End handler.

(** ** main.go: the [/api/v1] group *)

Module main.
Import handler.

(** What a middleware does with the request: abort it with a response, or
    call [c.Next()]. *)
Inductive Middleware :=
| AbortWithStatusJSON (code : Z) (obj : Body)
| Next.

(** [apiKeyAuth]. *)
Definition apiKeyAuth (env : Env) (c : Context) : Middleware :=
  let apiKey := c_GetHeader c "Authorization" in
  if negb (String.eqb apiKey (os_Getenv env "API_KEY"))
  then AbortWithStatusJSON 401 (H [("error", "Unauthorized")])
  else Next.

(** The four routes registered on the [api] group. *)
Inductive Route :=
| POST_upload
| GET_files_id
| PUT_files_id
| DELETE_files_id.

Definition route_handler (r : Route) : Context -> M Response :=
  match r with
  | POST_upload => handler.UploadFile
  | GET_files_id => handler.GetFileMetadata
  | PUT_files_id => handler.ReplaceFile
  | DELETE_files_id => handler.DeleteFile
  end.

(** A request to the group: [api.Use(apiKeyAuth())], then the handler. *)
Definition api_v1 (r : Route) (c : Context) : M Response :=
  do env <- ask;
  match apiKeyAuth env c with
  | AbortWithStatusJSON code obj => c_JSON code obj
  | Next => route_handler r c
  end.

End main.

(** ** Readings of the call log *)

#[export] Instance FileMetadata_eq_dec : EqDecision FileMetadata.
Proof. solve_decision. Defined.

#[export] Instance Call_eq_dec : EqDecision Call.
Proof. solve_decision. Defined.

#[export] Instance Event_eq_dec : EqDecision Event.
Proof. solve_decision. Defined.

Definition is_RemoveObject (ev : Event) : bool :=
  match ev_call ev with
  | CallRemoveObject _ => true
  | _ => false
  end.

Definition is_FPutObject (ev : Event) : bool :=
  match ev_call ev with
  | CallFPutObject _ _ _ => true
  | _ => false
  end.

Definition is_InsertOne (ev : Event) : bool :=
  match ev_call ev with
  | CallInsertOne _ => true
  | _ => false
  end.

Definition is_DeleteOne (ev : Event) : bool :=
  match ev_call ev with
  | CallDeleteOne _ => true
  | _ => false
  end.

Definition is_os_Remove (ev : Event) : bool :=
  match ev_call ev with
  | CallRemove _ => true
  | _ => false
  end.

(** Calls that write to or delete from one of the two stores. *)
Definition is_store_write (ev : Event) : bool :=
  match ev_call ev with
  | CallFPutObject _ _ _ | CallRemoveObject _ | CallInsertOne _
  | CallDeleteOne _ | CallFindOneAndUpdate _ _ => true
  | _ => false
  end.

(** ** Concrete requests, environments and worlds *)

Module Scenario.
Import handler.

Fixpoint has_prefix (sig data : list byte) : bool :=
  match sig, data with
  | [], _ => true
  | s :: sig', d :: data' => Byte.eqb s d && has_prefix sig' data'
  | _ :: _, [] => false
  end.

Definition png_magic : list byte := [x89; x50; x4e; x47; x0d; x0a; x1a; x0a].
Definition jpeg_magic : list byte := [xff; xd8; xff].

(** A stand-in for [http.DetectContentType] on the inputs used below: the
    PNG and JPEG signatures of its table, [application/octet-stream] for
    everything else. *)
Definition sniff_magic (data : list byte) : string :=
  if has_prefix png_magic data then "image/png"
  else if has_prefix jpeg_magic data then "image/jpeg"
  else "application/octet-stream".

Definition some_uuid : string := "123e4567-e89b-12d3-a456-426614174000".

(** Nothing fails; no [API_KEY] in the environment. *)
Definition env_ok : Env := {|
  fault := fun _ => None;
  uuid_at := fun _ => some_uuid;
  time_at := fun n => Z.of_nat n;
  TempDir := "/tmp";
  Bucket := "user-uploads";
  EndpointHost := "localhost:9000";
  environ := ∅;
  DetectContentType := sniff_magic;
  uuid_Parse := fun s => Nat.eqb (String.length s) 36
|}.

(** As [env_ok], but the [n]-th driver call fails with [e]. *)
Definition env_failing (n : nat) (e : driver_error) : Env := {|
  fault := fun k => if Nat.eqb k n then Some e else None;
  uuid_at := uuid_at env_ok;
  time_at := time_at env_ok;
  TempDir := TempDir env_ok;
  Bucket := Bucket env_ok;
  EndpointHost := EndpointHost env_ok;
  environ := environ env_ok;
  DetectContentType := DetectContentType env_ok;
  uuid_Parse := uuid_Parse env_ok
|}.

Definition world_empty : World :=
  {| objects := ∅; files := ∅; disk := ∅; tick := 0 |}.

(** A part named [photo.jpg], declared [text/html], whose bytes are a PNG
    signature. *)
Definition photo_jpg : FileHeader := {|
  Filename := "photo.jpg";
  Header := {[ "Content-Type" := ["text/html"] ]};
  Size := 8;
  content := png_magic
|}.

Definition upload_request : Context :=
  {| Request_Header := ∅; Params := ∅; Form := {[ "file" := photo_jpg ]} |}.

Definition id_request : Context :=
  {| Request_Header := ∅; Params := {[ "id" := some_uuid ]};
     Form := {[ "file" := photo_jpg ]} |}.

(** The world after [photo.jpg] has been uploaded into the empty one. *)
Definition world_uploaded : World :=
  match service.UploadFile photo_jpg env_ok world_empty with
  | (_, w, _) => w
  end.

(** A record whose blob is not in the bucket. *)
Definition record_only : FileMetadata := {|
  ID := some_uuid;
  OriginalName := "photo";
  FileSize := 8;
  ContentType := "image/png";
  BucketName := "user-uploads";
  UploadDate := 0;
  URL := "http://localhost:9000/user-uploads/123e4567-e89b-12d3-a456-426614174000.jpg"
|}.

Definition world_record_only : World :=
  {| objects := ∅; files := {[ some_uuid := record_only ]}; disk := ∅; tick := 0 |}.

(** The runs the statements below look at. An upload makes its driver
    calls in the order Open, MkdirAll, Create, Copy, FPutObject, InsertOne;
    a delete or replace starts with FindOne, RemoveObject. *)
Definition sniff_photo := handler.detectContentType photo_jpg env_ok world_empty.

Definition request_upload := handler.UploadFile upload_request env_ok world_empty.

Definition upload_copy_fails :=
  service.UploadFile photo_jpg
    (env_failing 3 (other_error "no space left on device")) world_empty.

Definition upload_put_fails :=
  service.UploadFile photo_jpg
    (env_failing 4 (other_error "connection refused")) world_empty.

Definition upload_insert_fails :=
  service.UploadFile photo_jpg
    (env_failing 5 (other_error "write concern timeout")) world_empty.

Definition delete_store_error :=
  service.DeleteFile some_uuid
    (env_failing 1 (other_error "connection reset")) world_record_only.

Definition delete_NoSuchKey :=
  service.DeleteFile some_uuid
    (env_failing 1 (minio_ErrorResponse "NoSuchKey")) world_record_only.

Definition replace_store_error :=
  service.ReplaceFile some_uuid photo_jpg
    (env_failing 1 (other_error "connection reset")) world_record_only.

Definition replace_NoSuchKey :=
  service.ReplaceFile some_uuid photo_jpg
    (env_failing 1 (minio_ErrorResponse "NoSuchKey")) world_record_only.

Definition replace_copy_fails :=
  service.ReplaceFile some_uuid photo_jpg
    (env_failing 5 (other_error "no space left on device")) world_record_only.

Definition delete_uploaded :=
  service.DeleteFile some_uuid env_ok world_uploaded.

End Scenario.

(** ** Vocabulary of the statements *)

Import handler main.

(** The response the upload handler builds from the service's result. *)
Definition upload_response (r : result string) : Response :=
  match r with
  | Ok url => {| status := StatusOK; body := SuccessResponse url |}
  | Err _ => {| status := StatusInternalServerError;
                body := ErrorResponse "Failed to process file" |}
  end.

(** The response the replace handler builds from the service's result. *)
Definition replace_response (r : result string) : Response :=
  match r with
  | Ok url => {| status := StatusOK; body := SuccessResponse url |}
  | Err err =>
      if decide (err = service_ErrFileNotFound)
      then {| status := StatusNotFound; body := ErrorResponse "File not found" |}
      else {| status := StatusInternalServerError;
              body := ErrorResponse "Failed to replace file" |}
  end.

(** The four messages an upload can be refused with, and the one it fails
    with. *)
Definition upload_error_messages : list string :=
  ["File upload error"; "Unsupported file extension"; "Invalid file content";
   "Unsupported file type"; "Failed to process file"].

(** ** NewMinioRepository *)

Module minio_init.

(** What the MinIO server and the context of [NewMinioRepository] do:
    whether [minio.New] fails, the answer of the n-th [BucketExists] call,
    whether [MakeBucket] fails, and whether [ctx.Done()] is ready at the n-th
    pass of the readiness loop. *)
Record InitEnv := {
  minio_New_err   : option driver_error;
  BucketExists_at : nat -> bool * option driver_error;
  MakeBucket_err  : option driver_error;
  ctx_Done_at     : nat -> bool
}.

(** The errors [NewMinioRepository] returns. *)
Inductive init_error :=
| connection_error (cause : driver_error)   (* "minio connection error: %w" *)
| bucket_check_error (cause : driver_error) (* "bucket check error: %w" *)
| ErrBucketNotCreated                       (* "failed to create bucket" *)
| readiness_timeout.                        (* "bucket readiness check timeout" *)

Inductive InitCall :=
| CallNew
| CallBucketExists (n : nat)
| CallMakeBucket
| CallSleep.

(** [MinioRepository], without the client handle. *)
Record MinioRepository := { repo_Bucket : string }.

(** The loop
<<
    for {
        select {
        case <-ctx.Done(): return nil, fmt.Errorf("bucket readiness check timeout")
        default:
            exists, err = client.BucketExists(ctx, bucketName)
            if exists && err == nil { return &MinioRepository{...}, nil }
            time.Sleep(bucketCheckInterval)
        }
    }
>>
    at its [pass]-th pass, with [n] [BucketExists] calls made before; [None]
    when [fuel] passes were not enough. *)
Fixpoint wait_ready (fuel : nat) (env : InitEnv) (bucketName : string)
    (pass n : nat) : option ((init_error + MinioRepository) * list InitCall) :=
  match fuel with
  | O => None
  | S fuel' =>
      if ctx_Done_at env pass then Some (inl readiness_timeout, [])
      else
        match BucketExists_at env n with
        | (true, None) =>
            Some (inr {| repo_Bucket := bucketName |}, [CallBucketExists n])
        | _ =>
            match wait_ready fuel' env bucketName (S pass) (S n) with
            | Some (r, l) => Some (r, CallBucketExists n :: CallSleep :: l)
            | None => None
            end
        end
  end.

(** [NewMinioRepository]. *)
Definition NewMinioRepository (fuel : nat) (env : InitEnv) (bucketName : string)
    : option ((init_error + MinioRepository) * list InitCall) :=
  match minio_New_err env with
  | Some err => Some (inl (connection_error err), [CallNew])
  | None =>
      match BucketExists_at env 0 with
      | (_, Some err) =>
          Some (inl (bucket_check_error err), [CallNew; CallBucketExists 0])
      | (exists_, None) =>
          if negb exists_ then
            match MakeBucket_err env with
            | Some _ =>
                Some (inl ErrBucketNotCreated,
                      [CallNew; CallBucketExists 0; CallMakeBucket])
            | None =>
                match wait_ready fuel env bucketName 0 1 with
                | Some (r, l) =>
                    Some (r, CallNew :: CallBucketExists 0 :: CallMakeBucket :: l)
                | None => None
                end
            end
          else
            match wait_ready fuel env bucketName 0 1 with
            | Some (r, l) => Some (r, CallNew :: CallBucketExists 0 :: l)
            | None => None
            end
      end
  end.

End minio_init.

(** ** Further requests and worlds *)

Module Scenario2.
Import handler minio_init.


Definition empty_png : FileHeader := {|
  Filename := "empty.png";
  Header := {[ "Content-Type" := ["image/png"] ]};
  Size := 0;
  content := []
|}.

(** A PNG whose filename has an extension no list knows. *)
Definition tool_exe : FileHeader := {|
  Filename := "tool.exe";
  Header := {[ "Content-Type" := ["image/png"] ]};
  Size := 8;
  content := Scenario.png_magic
|}.

Definition request_of (id : string) (fh : FileHeader) : Context :=
  {| Request_Header := ∅; Params := {[ "id" := id ]}; Form := {[ "file" := fh ]} |}.

Definition keyed_request (key : string) : Context :=
  {| Request_Header := {[ "Authorization" := [key] ]};
     Params := {[ "id" := Scenario.some_uuid ]};
     Form := {[ "file" := Scenario.photo_jpg ]} |}.

(** As [Scenario.env_ok], with [API_KEY] set. *)
Definition env_keyed : Env := {|
  fault := fault Scenario.env_ok;
  uuid_at := uuid_at Scenario.env_ok;
  time_at := time_at Scenario.env_ok;
  TempDir := TempDir Scenario.env_ok;
  Bucket := Bucket Scenario.env_ok;
  EndpointHost := EndpointHost Scenario.env_ok;
  environ := {[ "API_KEY" := "secure-api-key-123" ]};
  DetectContentType := DetectContentType Scenario.env_ok;
  uuid_Parse := uuid_Parse Scenario.env_ok
|}.

(** A second record, next to the one of [Scenario.world_uploaded]. *)
Definition other_uuid : string := "00000000-0000-4000-8000-000000000001".

Definition other_record : FileMetadata := {|
  ID := other_uuid;
  OriginalName := "clip";
  FileSize := 3;
  ContentType := "video/mp4";
  BucketName := "user-uploads";
  UploadDate := 0;
  URL := "http://localhost:9000/user-uploads/00000000-0000-4000-8000-000000000001.mp4"
|}.

(** The uploaded world with the second record and its blob added. *)
Definition world_two : World := {|
  objects := <[other_uuid ++ ".mp4" :=
               {| obj_data := [x00; x00; x00]; obj_contentType := "video/mp4" |}]>
             (objects Scenario.world_uploaded);
  files := <[other_uuid := other_record]> (files Scenario.world_uploaded);
  disk := ∅;
  tick := 0
|}.

(** A server on which the bucket appears at the third [BucketExists] call
    and whose context is done from the sixth pass on. *)
Definition slow_bucket : InitEnv := {|
  minio_New_err := None;
  BucketExists_at := fun n => (Nat.leb 2 n, None);
  MakeBucket_err := None;
  ctx_Done_at := fun n => Nat.leb 5 n
|}.

(** A server whose bucket never appears. *)
Definition no_bucket : InitEnv := {|
  minio_New_err := None;
  BucketExists_at := fun _ => (false, None);
  MakeBucket_err := None;
  ctx_Done_at := fun n => Nat.leb 5 n
|}.

(** A server that refuses to create the bucket. *)
Definition refusing : InitEnv := {|
  minio_New_err := None;
  BucketExists_at := fun _ => (false, None);
  MakeBucket_err := Some (other_error "access denied");
  ctx_Done_at := fun n => Nat.leb 5 n
|}.

End Scenario2.

(** * Theorems *)

(** ** Running the monad symbolically *)

Ltac unfold_ops :=
  cbv beta iota zeta delta
    [service.UploadFile service.saveUploadedFile service.DeleteFile
     service.ReplaceFile service.GetFileMetadata
     repository.minio_UploadFile repository.minio_DeleteFile
     repository.mongo_SaveMetadata repository.mongo_GetMetadata
     repository.mongo_DeleteMetadata repository.mongo_UpdateMetadata
     handler.detectContentType
     multipart_Open multipart_Read multipart_Seek file_Close os_MkdirAll
     os_Create io_Copy os_Remove client_FPutObject client_RemoveObject
     collection_InsertOne collection_FindOne collection_DeleteOne
     collection_FindOneAndUpdate uuid_New time_Now os_TempDir
     c_JSON bind ret fail try defer ask driver_call keep err_of].

Ltac red_world :=
  cbn [tick set_tick set_disk set_objects set_files disk objects files app
       err_of ID OriginalName FileSize ContentType BucketName UploadDate URL
       ev_call ev_err negb status body].

(** Case split on the outcome the oracle gives the next driver call. *)
Ltac split_fault :=
  match goal with
  | |- context [fault ?env ?n] =>
      let F := fresh "F" in destruct (fault env n) eqn:F; red_world
  end.

(** [errors.Is] against [mongo.ErrNoDocuments], for the two kinds of error
    the repository hands to the service. *)
Lemma errors_Is_NoDocuments_Driver (d : driver_error) :
  errors_Is (Driver d) (Driver mongo_ErrNoDocuments)
  = bool_decide (d = mongo_ErrNoDocuments).
Proof.
  unfold errors_Is. destruct (decide (Driver d = Driver mongo_ErrNoDocuments)) as [E | E].
  - injection E as ->. reflexivity.
  - rewrite bool_decide_eq_false_2; [reflexivity | congruence].
Qed.

Lemma errors_Is_NoDocuments_DocumentNotFound :
  errors_Is repository_ErrDocumentNotFound (Driver mongo_ErrNoDocuments) = false.
Proof. reflexivity. Qed.

(** Follows every path of the operation in the goal. *)
Ltac walk_step :=
  first
    [ rewrite lookup_insert_eq
    | rewrite lookup_delete_eq
    | rewrite errors_Is_NoDocuments_DocumentNotFound
    | rewrite errors_Is_NoDocuments_Driver
    | split_fault
    | match goal with
      | |- context [repository.is_NoSuchKey ?e] =>
          let K := fresh "K" in destruct (repository.is_NoSuchKey e) eqn:K
      | |- context [bool_decide (?d = mongo_ErrNoDocuments)] =>
          let K := fresh "K" in
          destruct (bool_decide (d = mongo_ErrNoDocuments)) eqn:K
      | |- context [map_index ?m ?k] =>
          let K := fresh "K" in destruct (map_index m k) eqn:K
      | |- context [match content ?f with _ => _ end] =>
          let K := fresh "K" in destruct (content f) eqn:K
      | |- context [c_FormFile ?c ?n] =>
          let K := fresh "K" in destruct (c_FormFile c n) eqn:K
      | |- context [uuid_Parse ?env ?s] =>
          let K := fresh "K" in destruct (uuid_Parse env s) eqn:K
      end
    | match goal with
      | |- context [match ?m !! ?k with _ => _ end] =>
          let L := fresh "L" in destruct (m !! k) eqn:L
      end ];
  red_world.

Ltac walk := repeat walk_step.

(** All the cases of a membership in an explicit log. *)
Ltac log_cases H :=
  repeat (apply elem_of_cons in H;
          destruct H as [H | H];
          [ try discriminate H | ]);
  try (apply elem_of_nil in H; destruct H).

(** ** Authentication gate *)

Lemma apiKeyAuth_Next_iff (env : Env) (c : Context) :
  apiKeyAuth env c = Next ↔
  c_GetHeader c "Authorization" = os_Getenv env "API_KEY".
Proof.
  unfold apiKeyAuth.
  destruct (String.eqb_spec (c_GetHeader c "Authorization")
                            (os_Getenv env "API_KEY")) as [Heq | Hne]; cbn.
  - split; auto.
  - split; [discriminate | intros; contradiction].
Qed.

Lemma api_v1_Next (r : Route) (c : Context) (env : Env) (w : World) :
  apiKeyAuth env c = Next → api_v1 r c env w = route_handler r c env w.
Proof.
  intros HN. unfold api_v1, bind, ask. rewrite HN.
  destruct (route_handler r c env w) as [[res w'] tr]. reflexivity.
Qed.

(** C10. The gate compares the [Authorization] header with [API_KEY] by
    string equality and nothing else; so when [API_KEY] is unset or empty, a
    request without an [Authorization] header, or with an empty one, passes
    the gate and is served by the route's handler. *)
Theorem C10_empty_secret_passes_request_without_header
    (env : Env) (c : Context) (r : Route) (w : World) :
  environ env !! "API_KEY" = None ∨ environ env !! "API_KEY" = Some "" →
  Request_Header c !! "Authorization" = None
    ∨ (∃ vs, Request_Header c !! "Authorization" = Some ("" :: vs)) →
  (∀ c', apiKeyAuth env c' = Next ↔
         c_GetHeader c' "Authorization" = os_Getenv env "API_KEY")
  ∧ apiKeyAuth env c = Next
  ∧ api_v1 r c env w = route_handler r c env w.
Proof.
  intros Hkey Hhdr.
  assert (HN : apiKeyAuth env c = Next).
  { apply apiKeyAuth_Next_iff.
    unfold c_GetHeader, Header_Get, os_Getenv.
    destruct Hkey as [-> | ->]; destruct Hhdr as [-> | [vs ->]]; reflexivity. }
  split; [intros c'; apply apiKeyAuth_Next_iff |].
  split; [exact HN | by apply api_v1_Next].
Qed.

Lemma C10_witness :
  apiKeyAuth Scenario.env_ok Scenario.upload_request = Next
  ∧ api_v1 POST_upload Scenario.upload_request Scenario.env_ok Scenario.world_empty
    = handler.UploadFile Scenario.upload_request Scenario.env_ok Scenario.world_empty.
Proof.
  apply (C10_empty_secret_passes_request_without_header
           Scenario.env_ok Scenario.upload_request POST_upload Scenario.world_empty).
  - left. reflexivity.
  - left. reflexivity.
Defined.

(** ** Upload *)

(** C6. When the blob write ([FPutObject]) fails, [UploadFile] returns that
    storage error (wrapped as "upload error"), the log holds no [InsertOne]
    call, and the collection is as it was: no record without a blob. *)
Theorem C6_upload_blob_write_failure_skips_metadata
    (file : FileHeader) (env : Env) (w w' : World) (r : result string)
    (tr : list Event) (obj path ct : string) (e : error) :
  service.UploadFile file env w = (r, w', tr) →
  Ev (CallFPutObject obj path ct) (Some e) ∈ tr →
  r = Err (fmt_Errorf "upload error" e)
  ∧ List.filter is_InsertOne tr = []
  ∧ files w' = files w.
Proof.
  intros Hrun Hin. revert Hrun. unfold_ops. red_world.
  walk; intros [= <- <- <-]; log_cases Hin.
  all: injection Hin as _ _ _ <-; auto.
Qed.

Lemma C6_witness :
  Scenario.upload_put_fails.1.1
  = Err (fmt_Errorf "upload error" (Driver (other_error "connection refused")))
  ∧ List.filter is_InsertOne Scenario.upload_put_fails.2 = []
  ∧ files Scenario.upload_put_fails.1.2 = files Scenario.world_empty.
Proof.
  apply (C6_upload_blob_write_failure_skips_metadata
           Scenario.photo_jpg
           (Scenario.env_failing 4 (other_error "connection refused"))
           Scenario.world_empty
           Scenario.upload_put_fails.1.2 Scenario.upload_put_fails.1.1
           Scenario.upload_put_fails.2
           (Scenario.some_uuid ++ ".jpg")
           ("/tmp/" ++ Scenario.some_uuid ++ ".jpg")
           "text/html"
           (Driver (other_error "connection refused"))).
  - vm_compute. reflexivity.
  - apply (bool_decide_unpack _). vm_compute. exact I.
Defined.

(** C5. When the blob put has succeeded and the metadata insert then fails
    with [e], [UploadFile] returns [e] itself, and its log holds exactly one
    [RemoveObject] call, on the object just written, whatever that call
    returned. *)
Theorem C5_upload_compensates_once_and_returns_insert_error
    (file : FileHeader) (env : Env) (w w' : World) (r : result string)
    (tr : list Event) (obj path ct : string) (doc : FileMetadata) (e : error) :
  service.UploadFile file env w = (r, w', tr) →
  Ev (CallFPutObject obj path ct) None ∈ tr →
  Ev (CallInsertOne doc) (Some e) ∈ tr →
  r = Err e
  ∧ ∃ o, List.filter is_RemoveObject tr = [Ev (CallRemoveObject obj) o].
Proof.
  intros Hrun Hput Hins. revert Hrun. unfold_ops. red_world.
  walk; intros [= <- <- <-]; log_cases Hins; log_cases Hput.
  all: injection Hins as _ <-; injection Hput as <- _ _.
  all: split; [reflexivity | eexists; reflexivity].
Qed.

Lemma C5_witness :
  Scenario.upload_insert_fails.1.1
  = Err (Driver (other_error "write concern timeout"))
  ∧ ∃ o, List.filter is_RemoveObject Scenario.upload_insert_fails.2
         = [Ev (CallRemoveObject (Scenario.some_uuid ++ ".jpg")) o].
Proof.
  apply (C5_upload_compensates_once_and_returns_insert_error
           Scenario.photo_jpg
           (Scenario.env_failing 5 (other_error "write concern timeout"))
           Scenario.world_empty
           Scenario.upload_insert_fails.1.2 Scenario.upload_insert_fails.1.1
           Scenario.upload_insert_fails.2
           (Scenario.some_uuid ++ ".jpg")
           ("/tmp/" ++ Scenario.some_uuid ++ ".jpg")
           "text/html"
           {| ID := Scenario.some_uuid;
              OriginalName := "photo";
              FileSize := 8;
              ContentType := "text/html";
              BucketName := "user-uploads";
              UploadDate := 5;
              URL := "http://localhost:9000/user-uploads/"
                     ++ Scenario.some_uuid ++ ".jpg" |}
           (Driver (other_error "write concern timeout"))).
  - vm_compute. reflexivity.
  - apply (bool_decide_unpack _). vm_compute. exact I.
  - apply (bool_decide_unpack _). vm_compute. exact I.
Defined.

(** When the compensating delete itself succeeds, the blob written by the
    failed upload is no longer in the bucket. *)
Lemma upload_compensation_removes_the_blob
    (file : FileHeader) (env : Env) (w w' : World) (r : result string)
    (tr : list Event) (obj : string) (doc : FileMetadata) (e : error) :
  service.UploadFile file env w = (r, w', tr) →
  Ev (CallInsertOne doc) (Some e) ∈ tr →
  Ev (CallRemoveObject obj) None ∈ tr →
  objects w' !! obj = None.
Proof.
  intros Hrun Hins Hdel. revert Hrun. unfold_ops. red_world.
  walk; intros [= <- <- <-]; log_cases Hins; log_cases Hdel.
  all: injection Hdel as <-; red_world; apply lookup_delete_eq.
Qed.

(** C9, as the code has it. For every admitted upload (the handler answers
    200), the record inserted and stored carries as [ContentType] the
    [Content-Type] header of the uploaded part, as the client sent it. *)
Theorem C9_stored_content_type_is_the_declared_one
    (c : Context) (env : Env) (w w' : World) (resp : Response) (tr : list Event) :
  handler.UploadFile c env w = (Ok resp, w', tr) →
  status resp = StatusOK →
  ∃ file md,
    c_FormFile c "file" = Ok file
    ∧ Ev (CallInsertOne md) None ∈ tr
    ∧ files w' !! ID md = Some md
    ∧ ContentType md = Header_Get (Header file) "Content-Type".
Proof.
  intros Hrun Hst. revert Hrun. unfold handler.UploadFile. unfold_ops. red_world.
  walk; intros [= <- <- <-]; try discriminate Hst.
  all: eexists _, _; split; [reflexivity |].
  all: split; [cbn; do 8 right; left; reflexivity |].
  all: split; [red_world; apply lookup_insert_eq | reflexivity].
Qed.

Lemma C9_witness :
  ∃ file md,
    c_FormFile Scenario.upload_request "file" = Ok file
    ∧ Ev (CallInsertOne md) None ∈ Scenario.request_upload.2
    ∧ files Scenario.request_upload.1.2 !! ID md = Some md
    ∧ ContentType md = Header_Get (Header file) "Content-Type".
Proof.
  apply (C9_stored_content_type_is_the_declared_one
           Scenario.upload_request Scenario.env_ok Scenario.world_empty
           Scenario.request_upload.1.2
           {| status := 200;
              body := SuccessResponse
                        ("http://localhost:9000/user-uploads/"
                         ++ Scenario.some_uuid ++ ".jpg") |}
           Scenario.request_upload.2).
  - vm_compute. reflexivity.
  - reflexivity.
Defined.

(** C9, as stated, at [photo.jpg]: the bytes sniff as [image/png], the part
    declares [text/html], the upload is admitted, and the record persisted
    says [text/html]. *)
Lemma C9_counterexample :
  Scenario.sniff_photo.1.1 = Ok "image/png"
  ∧ Header_Get (Header Scenario.photo_jpg) "Content-Type" = "text/html"
  ∧ Scenario.request_upload.1.1
    = Ok {| status := 200;
            body := SuccessResponse
                      ("http://localhost:9000/user-uploads/"
                       ++ Scenario.some_uuid ++ ".jpg") |}
  ∧ ContentType <$> (files Scenario.request_upload.1.2 !! Scenario.some_uuid)
    = Some "text/html"
  ∧ "text/html" ≠ "image/png".
Proof.
  split; [vm_compute; reflexivity |].
  split; [vm_compute; reflexivity |].
  split; [vm_compute; reflexivity |].
  split; [vm_compute; reflexivity | discriminate].
Qed.

(** ** The validation gate of the upload handler *)

(** C4, as the code has it. For an upload whose extension is in the
    extension allow-list and whose prefix has been sniffed as [ct]:
    if [ct] is outside the type allow-list the handler answers 400
    "Unsupported file type" and no store or staging file has been touched;
    if [ct] is in the type allow-list the file goes to [service.UploadFile],
    whatever the extension is. *)
Theorem C4_gate_checks_sniffed_type_against_allow_list_only
    (c : Context) (env : Env) (w w1 : World) (file : FileHeader)
    (ct : string) (l1 : list Event) :
  c_FormFile c "file" = Ok file →
  map_index allowedExtensions
    (strings_ToLower (filepath_Ext (Filename file))) = true →
  handler.detectContentType file env w = (Ok ct, w1, l1) →
  (map_index allowedTypes ct = false →
     handler.UploadFile c env w
     = (Ok {| status := StatusBadRequest;
              body := ErrorResponse "Unsupported file type" |}, w1, l1)
     ∧ objects w1 = objects w ∧ files w1 = files w ∧ disk w1 = disk w
     ∧ List.filter is_store_write l1 = [])
  ∧ (map_index allowedTypes ct = true →
     ∃ r w2 l2,
       service.UploadFile file env w1 = (r, w2, l2)
       ∧ handler.UploadFile c env w = (Ok (upload_response r), w2, (l1 ++ l2)%list)).
Proof.
  intros Hform Hext Hsniff. split; intros Htype.
  - split.
    + unfold handler.UploadFile. rewrite Hform, Hext. cbn [negb].
      unfold bind at 1, try at 1. rewrite Hsniff. rewrite Htype. cbn [negb].
      unfold c_JSON, ret. rewrite app_nil_r. reflexivity.
    + revert Hsniff. unfold_ops. red_world.
      walk; intros [= <- <- <-]; red_world; auto.
  - destruct (service.UploadFile file env w1) as [[r w2] l2] eqn:Hup.
    exists r, w2, l2. split; [reflexivity |].
    unfold handler.UploadFile. rewrite Hform, Hext. cbn [negb].
    unfold bind at 1, try at 1. rewrite Hsniff. rewrite Htype. cbn [negb].
    unfold bind, try. rewrite Hup.
    destruct r; unfold c_JSON, ret; rewrite app_nil_r; reflexivity.
Qed.

Lemma C4_witness :
  (map_index allowedTypes "image/png" = false →
     handler.UploadFile Scenario.upload_request Scenario.env_ok Scenario.world_empty
     = (Ok {| status := StatusBadRequest;
              body := ErrorResponse "Unsupported file type" |},
        Scenario.sniff_photo.1.2, Scenario.sniff_photo.2)
     ∧ objects Scenario.sniff_photo.1.2 = objects Scenario.world_empty
     ∧ files Scenario.sniff_photo.1.2 = files Scenario.world_empty
     ∧ disk Scenario.sniff_photo.1.2 = disk Scenario.world_empty
     ∧ List.filter is_store_write Scenario.sniff_photo.2 = [])
  ∧ (map_index allowedTypes "image/png" = true →
     ∃ r w2 l2,
       service.UploadFile Scenario.photo_jpg Scenario.env_ok
         Scenario.sniff_photo.1.2 = (r, w2, l2)
       ∧ handler.UploadFile Scenario.upload_request Scenario.env_ok
           Scenario.world_empty
         = (Ok (upload_response r), w2, (Scenario.sniff_photo.2 ++ l2)%list)).
Proof.
  apply (C4_gate_checks_sniffed_type_against_allow_list_only
           Scenario.upload_request Scenario.env_ok Scenario.world_empty
           Scenario.sniff_photo.1.2 Scenario.photo_jpg "image/png"
           Scenario.sniff_photo.2).
  - vm_compute. reflexivity.
  - vm_compute. reflexivity.
  - vm_compute. reflexivity.
Defined.

(** C4, as stated, at [photo.jpg]: the extension [.jpg] is allowed, the
    bytes sniff as [image/png], and the upload is not rejected: the handler
    answers 200 and the bucket holds the bytes under [<uuid>.jpg]. *)
Lemma C4_counterexample :
  map_index allowedExtensions
    (strings_ToLower (filepath_Ext (Filename Scenario.photo_jpg))) = true
  ∧ Scenario.sniff_photo.1.1 = Ok "image/png"
  ∧ Scenario.request_upload.1.1
    = Ok {| status := 200;
            body := SuccessResponse
                      ("http://localhost:9000/user-uploads/"
                       ++ Scenario.some_uuid ++ ".jpg") |}
  ∧ obj_data <$>
      (objects Scenario.request_upload.1.2 !! (Scenario.some_uuid ++ ".jpg"))
    = Some Scenario.png_magic.
Proof.
  repeat split; vm_compute; reflexivity.
Qed.

(** ** Staging files *)

(** C8, on the path the code misses. When [os.Create] has succeeded and
    [io.Copy] then fails, [UploadFile] returns the copy error from before
    its [defer os.Remove(localPath)]: the log holds no [os.Remove] call and
    the staging file is still on disk when the operation has returned. *)
Theorem C8_upload_copy_failure_leaves_staged_file
    (file : FileHeader) (env : Env) (w : World) (d : driver_error) :
  fault env (tick w) = None →
  fault env (S (tick w)) = None →
  fault env (S (S (tick w))) = None →
  fault env (S (S (S (tick w)))) = Some d →
  let localPath :=
    filepath_Join (TempDir env)
      (uuid_at env (tick w) ++ filepath_Ext (Filename file)) in
  ∃ w' tr,
    service.UploadFile file env w = (Err (Driver d), w', tr)
    ∧ Ev (CallCreate localPath) None ∈ tr
    ∧ Ev (CallCopy localPath) (Some (Driver d)) ∈ tr
    ∧ List.filter is_os_Remove tr = []
    ∧ disk w' !! localPath = Some [].
Proof.
  intros F0 F1 F2 F3 localPath. subst localPath.
  unfold_ops. red_world. rewrite F0. red_world. rewrite F1. red_world.
  rewrite F2. red_world. rewrite F3. red_world.
  eexists _, _. split; [reflexivity |].
  split; [do 2 right; left; reflexivity |].
  split; [do 3 right; left; reflexivity |].
  split; [reflexivity | apply lookup_insert_eq].
Qed.

Lemma C8_witness :
  ∃ w' tr,
    Scenario.upload_copy_fails
    = (Err (Driver (other_error "no space left on device")), w', tr)
    ∧ Ev (CallCreate ("/tmp/" ++ Scenario.some_uuid ++ ".jpg")) None ∈ tr
    ∧ Ev (CallCopy ("/tmp/" ++ Scenario.some_uuid ++ ".jpg"))
         (Some (Driver (other_error "no space left on device"))) ∈ tr
    ∧ List.filter is_os_Remove tr = []
    ∧ disk w' !! ("/tmp/" ++ Scenario.some_uuid ++ ".jpg") = Some [].
Proof.
  apply (C8_upload_copy_failure_leaves_staged_file
           Scenario.photo_jpg
           (Scenario.env_failing 3 (other_error "no space left on device"))
           Scenario.world_empty
           (other_error "no space left on device")); reflexivity.
Defined.

(** The same path in [ReplaceFile], on a world that holds the record. *)
Example replace_copy_failure_leaves_staged_file :
  Scenario.replace_copy_fails.1.1
  = Err (Driver (other_error "no space left on device"))
  ∧ List.filter is_os_Remove Scenario.replace_copy_fails.2 = []
  ∧ disk Scenario.replace_copy_fails.1.2 !! ("/tmp/" ++ Scenario.some_uuid ++ ".jpg")
    = Some [].
Proof. repeat split; vm_compute; reflexivity. Qed.

(** Once the staging file has been written, every path of [UploadFile] ends
    with the deferred [os.Remove] of that file. *)
Lemma upload_removes_staged_file_after_save
    (file : FileHeader) (env : Env) (w w' : World) (r : result string)
    (tr : list Event) (path : string) :
  service.UploadFile file env w = (r, w', tr) →
  Ev (CallCopy path) None ∈ tr →
  ∃ o, last tr = Some (Ev (CallRemove path) o).
Proof.
  intros Hrun Hcopy. revert Hrun. unfold_ops. red_world.
  walk; intros [= <- <- <-]; log_cases Hcopy.
  all: injection Hcopy as <-; eexists; reflexivity.
Qed.

(** ** Delete and Replace: the blob-store delete *)

(** C3, as the code has it. [DeleteFile] returns every error of the
    blob-store delete: [NoSuchKey] as [repository.ErrFileNotFound], any other
    wrapped as "delete error"; in both cases no [DeleteOne] is issued and
    the collection is as it was. Only a blob-store delete that reports
    success is followed by the removal of the record. *)
Theorem C3_delete_returns_every_blob_delete_error
    (fileID : string) (env : Env) (w w' : World) (r : result unit)
    (tr : list Event) (obj : string) (o : option error) :
  service.DeleteFile fileID env w = (r, w', tr) →
  Ev (CallRemoveObject obj) o ∈ tr →
  match o with
  | Some e =>
      r = Err (if repository.is_NoSuchKey e then repository_ErrFileNotFound
               else fmt_Errorf "delete error" e)
      ∧ List.filter is_DeleteOne tr = []
      ∧ files w' = files w
  | None =>
      ∃ o', List.filter is_DeleteOne tr = [Ev (CallDeleteOne fileID) o']
  end.
Proof.
  intros Hrun Hin. revert Hrun. unfold_ops. red_world.
  walk; intros [= <- <- <-]; log_cases Hin.
  all: injection Hin as _ ->; rewrite ?K; cbn; eauto.
Qed.

Lemma C3_witness :
  Scenario.delete_store_error.1.1
  = Err (fmt_Errorf "delete error" (Driver (other_error "connection reset")))
  ∧ List.filter is_DeleteOne Scenario.delete_store_error.2 = []
  ∧ files Scenario.delete_store_error.1.2 = files Scenario.world_record_only.
Proof.
  apply (C3_delete_returns_every_blob_delete_error
           Scenario.some_uuid
           (Scenario.env_failing 1 (other_error "connection reset"))
           Scenario.world_record_only
           Scenario.delete_store_error.1.2 Scenario.delete_store_error.1.1
           Scenario.delete_store_error.2
           Scenario.some_uuid
           (Some (Driver (other_error "connection reset")))).
  - vm_compute. reflexivity.
  - apply (bool_decide_unpack _). vm_compute. exact I.
Defined.

(** C3, as stated, at a record whose blob is not in the bucket and a store
    that answers [NoSuchKey]: [DeleteFile] does not succeed; it returns
    [repository.ErrFileNotFound], issues no [DeleteOne], and the record is
    still in the collection. *)
Lemma C3_counterexample :
  files Scenario.world_record_only !! Scenario.some_uuid = Some Scenario.record_only
  ∧ objects Scenario.world_record_only = ∅
  ∧ Scenario.delete_NoSuchKey.2
    = [Ev (CallFindOne Scenario.some_uuid) None;
       Ev (CallRemoveObject Scenario.some_uuid)
          (Some (Driver (minio_ErrorResponse "NoSuchKey")))]
  ∧ Scenario.delete_NoSuchKey.1.1 = Err repository_ErrFileNotFound
  ∧ Scenario.delete_NoSuchKey.1.1 ≠ Ok tt
  ∧ files Scenario.delete_NoSuchKey.1.2 !! Scenario.some_uuid
    = Some Scenario.record_only.
Proof.
  split; [vm_compute; reflexivity |].
  split; [reflexivity |].
  split; [vm_compute; reflexivity |].
  split; [vm_compute; reflexivity |].
  split; [vm_compute; discriminate | vm_compute; reflexivity].
Qed.

(** C7, as the code has it. The first [RemoveObject] call of [ReplaceFile]
    is the delete of the old blob. Whatever error it returns, [NoSuchKey]
    included, [ReplaceFile] returns it ([NoSuchKey] as
    [repository.ErrFileNotFound], any other wrapped as "delete error") and
    makes no further call: no staging, no [FPutObject]. Only when it reports
    success does [ReplaceFile] go on to stage the new file. *)
Theorem C7_replace_returns_every_old_blob_delete_error
    (fileID : string) (newFile : FileHeader) (env : Env) (w w' : World)
    (r : result string) (tr : list Event) (obj : string) (o : option error) :
  service.ReplaceFile fileID newFile env w = (r, w', tr) →
  List.find is_RemoveObject tr = Some (Ev (CallRemoveObject obj) o) →
  match o with
  | Some e =>
      r = Err (if repository.is_NoSuchKey e then repository_ErrFileNotFound
               else fmt_Errorf "delete error" e)
      ∧ tr = [Ev (CallFindOne fileID) None; Ev (CallRemoveObject obj) (Some e)]
      ∧ List.filter is_FPutObject tr = []
      ∧ objects w' = objects w
  | None =>
      ∃ o', tr !! 2%nat = Some (Ev (CallOpen (Filename newFile)) o')
  end.
Proof.
  intros Hrun Hfind. revert Hrun. unfold_ops. red_world.
  walk; intros [= <- <- <-]; cbn in Hfind; try discriminate Hfind.
  all: injection Hfind as <- <-; rewrite ?K; cbn; eauto 6.
Qed.

Lemma C7_witness :
  Scenario.replace_store_error.1.1
  = Err (fmt_Errorf "delete error" (Driver (other_error "connection reset")))
  ∧ Scenario.replace_store_error.2
    = [Ev (CallFindOne Scenario.some_uuid) None;
       Ev (CallRemoveObject Scenario.some_uuid)
          (Some (Driver (other_error "connection reset")))]
  ∧ List.filter is_FPutObject Scenario.replace_store_error.2 = []
  ∧ objects Scenario.replace_store_error.1.2 = objects Scenario.world_record_only.
Proof.
  apply (C7_replace_returns_every_old_blob_delete_error
           Scenario.some_uuid Scenario.photo_jpg
           (Scenario.env_failing 1 (other_error "connection reset"))
           Scenario.world_record_only
           Scenario.replace_store_error.1.2 Scenario.replace_store_error.1.1
           Scenario.replace_store_error.2
           Scenario.some_uuid
           (Some (Driver (other_error "connection reset")))).
  - vm_compute. reflexivity.
  - vm_compute. reflexivity.
Defined.

(** C7, as stated, at a record whose old blob the store reports absent
    ([NoSuchKey]): [ReplaceFile] does not continue with the upload of the
    new blob; it returns [repository.ErrFileNotFound] right after the failed
    delete, and the bucket holds no new object. *)
Lemma C7_counterexample :
  Scenario.replace_NoSuchKey.2
  = [Ev (CallFindOne Scenario.some_uuid) None;
     Ev (CallRemoveObject Scenario.some_uuid)
        (Some (Driver (minio_ErrorResponse "NoSuchKey")))]
  ∧ Scenario.replace_NoSuchKey.1.1 = Err repository_ErrFileNotFound
  ∧ List.filter is_FPutObject Scenario.replace_NoSuchKey.2 = []
  ∧ objects Scenario.replace_NoSuchKey.1.2 = ∅.
Proof.
  repeat split; vm_compute; reflexivity.
Qed.

(** ** Unknown identifiers *)

(** C1, as the code runs. For an identifier without a record (and a driver
    that answers), [GetFileMetadata], [DeleteFile] and [ReplaceFile] make the
    one [FindOne] call and nothing else, and all three return
    [repository.ErrDocumentNotFound]: the repository has already replaced
    [mongo.ErrNoDocuments], so the service's [errors.Is(err,
    mongo.ErrNoDocuments)] test is false and [service.ErrFileNotFound] is not
    produced; the handlers, which compare with [service.ErrFileNotFound],
    answer 500. *)
Theorem C1_unknown_id_yields_ErrDocumentNotFound_and_500
    (fileID : string) (newFile : FileHeader) (c : Context) (env : Env) (w : World) :
  files w !! fileID = None →
  fault env (tick w) = None →
  c_Param c "id" = fileID →
  uuid_Parse env fileID = true →
  let w' := set_tick (S (tick w)) w in
  let tr := [Ev (CallFindOne fileID) (Some (Driver mongo_ErrNoDocuments))] in
  service.GetFileMetadata fileID env w = (Err repository_ErrDocumentNotFound, w', tr)
  ∧ service.DeleteFile fileID env w = (Err repository_ErrDocumentNotFound, w', tr)
  ∧ service.ReplaceFile fileID newFile env w
    = (Err repository_ErrDocumentNotFound, w', tr)
  ∧ repository_ErrDocumentNotFound ≠ service_ErrFileNotFound
  ∧ List.filter is_store_write tr = []
  ∧ handler.GetFileMetadata c env w
    = (Ok {| status := StatusInternalServerError;
             body := ErrorResponse "Failed to get file metadata" |}, w', tr)
  ∧ handler.DeleteFile c env w
    = (Ok {| status := StatusInternalServerError;
             body := ErrorResponse "Failed to delete file" |}, w', tr).
Proof.
  intros Hnone F Hid Hparse w' tr. subst w' tr.
  assert (HG : service.GetFileMetadata fileID env w
               = (Err repository_ErrDocumentNotFound, set_tick (S (tick w)) w,
                  [Ev (CallFindOne fileID) (Some (Driver mongo_ErrNoDocuments))])).
  { unfold_ops. red_world. rewrite F, Hnone. reflexivity. }
  assert (HD : service.DeleteFile fileID env w
               = (Err repository_ErrDocumentNotFound, set_tick (S (tick w)) w,
                  [Ev (CallFindOne fileID) (Some (Driver mongo_ErrNoDocuments))])).
  { unfold_ops. red_world. rewrite F, Hnone. reflexivity. }
  split; [exact HG |]. split; [exact HD |].
  split; [unfold_ops; red_world; rewrite F, Hnone; reflexivity |].
  split; [discriminate |]. split; [reflexivity |].
  split.
  - unfold handler.GetFileMetadata. rewrite Hid.
    unfold bind at 1, ask at 1. rewrite Hparse. cbn [negb].
    unfold bind, try. rewrite HG. reflexivity.
  - unfold handler.DeleteFile. rewrite Hid.
    unfold bind at 1, ask at 1. rewrite Hparse. cbn [negb].
    unfold bind, try. rewrite HD. reflexivity.
Qed.

Lemma C1_witness :
  service.GetFileMetadata Scenario.some_uuid Scenario.env_ok Scenario.world_empty
  = (Err repository_ErrDocumentNotFound, set_tick 1 Scenario.world_empty,
     [Ev (CallFindOne Scenario.some_uuid) (Some (Driver mongo_ErrNoDocuments))])
  ∧ service.DeleteFile Scenario.some_uuid Scenario.env_ok Scenario.world_empty
    = (Err repository_ErrDocumentNotFound, set_tick 1 Scenario.world_empty,
       [Ev (CallFindOne Scenario.some_uuid) (Some (Driver mongo_ErrNoDocuments))])
  ∧ service.ReplaceFile Scenario.some_uuid Scenario.photo_jpg Scenario.env_ok
      Scenario.world_empty
    = (Err repository_ErrDocumentNotFound, set_tick 1 Scenario.world_empty,
       [Ev (CallFindOne Scenario.some_uuid) (Some (Driver mongo_ErrNoDocuments))])
  ∧ repository_ErrDocumentNotFound ≠ service_ErrFileNotFound
  ∧ List.filter is_store_write
      [Ev (CallFindOne Scenario.some_uuid) (Some (Driver mongo_ErrNoDocuments))] = []
  ∧ handler.GetFileMetadata Scenario.id_request Scenario.env_ok Scenario.world_empty
    = (Ok {| status := StatusInternalServerError;
             body := ErrorResponse "Failed to get file metadata" |},
       set_tick 1 Scenario.world_empty,
       [Ev (CallFindOne Scenario.some_uuid) (Some (Driver mongo_ErrNoDocuments))])
  ∧ handler.DeleteFile Scenario.id_request Scenario.env_ok Scenario.world_empty
    = (Ok {| status := StatusInternalServerError;
             body := ErrorResponse "Failed to delete file" |},
       set_tick 1 Scenario.world_empty,
       [Ev (CallFindOne Scenario.some_uuid) (Some (Driver mongo_ErrNoDocuments))]).
Proof.
  apply (C1_unknown_id_yields_ErrDocumentNotFound_and_500
           Scenario.some_uuid Scenario.photo_jpg Scenario.id_request
           Scenario.env_ok Scenario.world_empty); reflexivity.
Defined.

(** No run of [DeleteFile], whatever the stores hold and whichever calls
    fail, returns [service.ErrFileNotFound]: the handler's 404 branch is
    never taken. *)
Lemma DeleteFile_never_returns_service_ErrFileNotFound
    (fileID : string) (env : Env) (w w' : World) (r : result unit) (tr : list Event) :
  service.DeleteFile fileID env w = (r, w', tr) →
  r ≠ Err service_ErrFileNotFound.
Proof.
  unfold_ops. red_world.
  walk; intros [= <- <- <-]; discriminate.
Qed.

Lemma GetFileMetadata_never_returns_service_ErrFileNotFound
    (fileID : string) (env : Env) (w w' : World) (r : result FileMetadata)
    (tr : list Event) :
  service.GetFileMetadata fileID env w = (r, w', tr) →
  r ≠ Err service_ErrFileNotFound.
Proof.
  unfold_ops. red_world.
  walk; intros [= <- <- <-]; discriminate.
Qed.

(** ** Object keys *)

Lemma append_cons (c : ascii) (a b : string) :
  String c a ++ b = String c (a ++ b).
Proof. reflexivity. Qed.

Lemma append_nil_l (b : string) : "" ++ b = b.
Proof. reflexivity. Qed.

Lemma append_nil_r (a : string) : a ++ "" = a.
Proof.
  induction a as [| c a IH]; [reflexivity |].
  rewrite append_cons. f_equal. exact IH.
Qed.

Lemma length_append (a b : string) :
  String.length (a ++ b) = (String.length a + String.length b)%nat.
Proof.
  induction a as [| c a IH]; [reflexivity |].
  rewrite append_cons. cbn. f_equal. exact IH.
Qed.

Lemma drop_str_append (a b : string) : drop_str (String.length a) (a ++ b) = b.
Proof.
  induction a as [| c a IH]; [by destruct b |].
  rewrite append_cons. exact IH.
Qed.

Lemma take_str_append (a b : string) : take_str (String.length a) (a ++ b) = a.
Proof.
  induction a as [| c a IH]; [by destruct b |].
  rewrite append_cons. cbn. f_equal. exact IH.
Qed.

Lemma append_inv_head (a b c : string) : a ++ b = a ++ c → b = c.
Proof.
  induction a as [| x a IH]; [auto |].
  rewrite !append_cons. intros [= H]. auto.
Qed.

(** Trimming a suffix that is there gives back the part before it. *)
Lemma strings_TrimSuffix_append (stem suffix : string) :
  strings_TrimSuffix (stem ++ suffix) suffix = stem.
Proof.
  unfold strings_TrimSuffix, strings_HasSuffix.
  rewrite length_append.
  replace (String.length stem + String.length suffix - String.length suffix)%nat
    with (String.length stem) by lia.
  rewrite drop_str_append, take_str_append, String.eqb_refl.
  destruct (Nat.leb_spec (String.length suffix)
              (String.length stem + String.length suffix)); [reflexivity | lia].
Qed.

(** The extension is a suffix of the path. *)
Lemma ext_scan_Found_suffix (path e : string) :
  ext_scan path = ExtFound e → ∃ stem, path = stem ++ e.
Proof.
  revert e. induction path as [| c rest IH]; intros e; cbn; [discriminate |].
  destruct (ext_scan rest) as [e' | |].
  - intros [= <-]. destruct (IH e' eq_refl) as [stem ->].
    by exists (String c stem).
  - discriminate.
  - destruct (Ascii.eqb c "."); [| destruct (Ascii.eqb c "/"); discriminate].
    intros [= <-]. by exists EmptyString.
Qed.

Lemma filepath_Ext_suffix (path : string) :
  ∃ stem, path = stem ++ filepath_Ext path.
Proof.
  unfold filepath_Ext. destruct (ext_scan path) as [e | |] eqn:E.
  - by apply ext_scan_Found_suffix.
  - exists path. by rewrite append_nil_r.
  - exists path. by rewrite append_nil_r.
Qed.

(** The name [UploadFile] stores and the extension it used are the two
    halves of the uploaded filename. *)
Lemma filename_is_stem_and_ext (name : string) :
  name = strings_TrimSuffix name (filepath_Ext name) ++ filepath_Ext name.
Proof.
  destruct (filepath_Ext_suffix name) as [stem Hs].
  rewrite Hs at 2. rewrite strings_TrimSuffix_append. exact Hs.
Qed.

(** A scan that has found the extension in a suffix finds the same one in
    the whole path. *)
Lemma ext_scan_append_Found (a b e : string) :
  ext_scan b = ExtFound e → ext_scan (a ++ b) = ExtFound e.
Proof.
  intros Hb. induction a as [| c a IH]; [exact Hb |].
  rewrite append_cons. cbn. by rewrite IH.
Qed.

(** A filename with one dot, [stem.e]: [UploadFile] uses the extension [.e]
    and stores [stem], in which [filepath.Ext] finds no extension. *)
Lemma single_dot_filename (stem e : string) :
  ext_scan stem = ExtContinue →
  ext_scan e = ExtContinue →
  let name := stem ++ "." ++ e in
  filepath_Ext name = "." ++ e
  ∧ strings_TrimSuffix name (filepath_Ext name) = stem
  ∧ filepath_Ext (strings_TrimSuffix name (filepath_Ext name)) = "".
Proof.
  intros Hstem He name. subst name.
  assert (HE : filepath_Ext (stem ++ "." ++ e) = "." ++ e).
  { unfold filepath_Ext. rewrite (ext_scan_append_Found stem ("." ++ e) ("." ++ e)).
    - reflexivity.
    - change ("." ++ e) with (String "."%char e).
      cbn [ext_scan]. rewrite He. reflexivity. }
  rewrite HE, strings_TrimSuffix_append.
  split; [reflexivity |]. split; [reflexivity |].
  unfold filepath_Ext. by rewrite Hstem.
Qed.

(** C2, as the code runs. After an upload, [DeleteFile] takes the key from
    the stored name, which is the filename with its extension already cut
    off: [FPutObject] wrote [id + Ext(filename)], [RemoveObject] is called on
    [id + Ext(stem)]. When the two extensions differ, the record is removed
    and the uploaded blob is still in the bucket. *)
Theorem C2_delete_key_comes_from_the_stripped_name
    (file : FileHeader) (env : Env) (w : World) :
  (∀ n, fault env n = None) →
  files w !! uuid_at env (tick w) = None →
  let id := uuid_at env (tick w) in
  let ext := filepath_Ext (Filename file) in
  let stem := strings_TrimSuffix (Filename file) ext in
  ∃ url w1 tr1 w2 tr2 path ct,
    service.UploadFile file env w = (Ok url, w1, tr1)
    ∧ List.filter is_FPutObject tr1 = [Ev (CallFPutObject (id ++ ext) path ct) None]
    ∧ OriginalName <$> files w1 !! id = Some stem
    ∧ service.DeleteFile id env w1 = (Ok tt, w2, tr2)
    ∧ List.filter is_RemoveObject tr2
      = [Ev (CallRemoveObject (id ++ filepath_Ext stem)) None]
    ∧ files w2 !! id = None
    ∧ (filepath_Ext stem ≠ ext → is_Some (objects w2 !! (id ++ ext))).
Proof.
  intros Hok Hfresh id ext stem. subst id ext stem.
  unfold_ops. red_world.
  repeat (first [ rewrite Hok | rewrite Hfresh | rewrite lookup_insert_eq ];
          red_world).
  eexists _, _, _, _, _, _, _. split; [reflexivity |]. red_world.
  repeat (first [ rewrite Hok | rewrite lookup_insert_eq ]; red_world).
  split; [reflexivity |]. split; [reflexivity |].
  split; [reflexivity |]. split; [reflexivity |]. red_world.
  split; [apply lookup_delete_eq |].
  intros Hne. rewrite lookup_delete_ne, lookup_insert_eq; [by eexists |].
  intros Heq. apply append_inv_head in Heq. contradiction.
Qed.

Lemma C2_witness :
  ∃ url w1 tr1 w2 tr2 path ct,
    service.UploadFile Scenario.photo_jpg Scenario.env_ok Scenario.world_empty
    = (Ok url, w1, tr1)
    ∧ List.filter is_FPutObject tr1
      = [Ev (CallFPutObject (Scenario.some_uuid ++ ".jpg") path ct) None]
    ∧ OriginalName <$> files w1 !! Scenario.some_uuid = Some "photo"
    ∧ service.DeleteFile Scenario.some_uuid Scenario.env_ok w1 = (Ok tt, w2, tr2)
    ∧ List.filter is_RemoveObject tr2
      = [Ev (CallRemoveObject (Scenario.some_uuid ++ "")) None]
    ∧ files w2 !! Scenario.some_uuid = None
    ∧ ("" ≠ ".jpg" → is_Some (objects w2 !! (Scenario.some_uuid ++ ".jpg"))).
Proof.
  apply (C2_delete_key_comes_from_the_stripped_name
           Scenario.photo_jpg Scenario.env_ok Scenario.world_empty).
  - intros n. reflexivity.
  - reflexivity.
Defined.

(** [photo.jpg] uploaded and then deleted, nothing failing: the delete
    succeeds, the record is gone, and the blob is still in the bucket under
    [<uuid>.jpg], because [RemoveObject] was called on [<uuid>]. *)
Example delete_after_upload_leaves_the_blob :
  obj_data <$> (objects Scenario.world_uploaded !! (Scenario.some_uuid ++ ".jpg"))
  = Some Scenario.png_magic
  ∧ Scenario.delete_uploaded.1.1 = Ok tt
  ∧ List.filter is_RemoveObject Scenario.delete_uploaded.2
    = [Ev (CallRemoveObject Scenario.some_uuid) None]
  ∧ files Scenario.delete_uploaded.1.2 !! Scenario.some_uuid = None
  ∧ obj_data <$>
      (objects Scenario.delete_uploaded.1.2 !! (Scenario.some_uuid ++ ".jpg"))
    = Some Scenario.png_magic.
Proof. repeat split; vm_compute; reflexivity. Qed.

(** The library functions at the inputs used above. *)
Example Ext_photo_jpg : filepath_Ext "photo.jpg" = ".jpg".
Proof. reflexivity. Qed.

Example Ext_photo : filepath_Ext "photo" = "".
Proof. reflexivity. Qed.

Example Ext_tar_gz : filepath_Ext "a.tar.gz" = ".gz".
Proof. reflexivity. Qed.

Example Ext_dir_dot : filepath_Ext "a.b/c" = "".
Proof. reflexivity. Qed.

Example TrimSuffix_photo : strings_TrimSuffix "photo.jpg" ".jpg" = "photo".
Proof. reflexivity. Qed.

Example ToLower_JPG : strings_ToLower ".JpG" = ".jpg".
Proof. reflexivity. Qed.

Example Dir_tmp : filepath_Dir "/tmp/x.jpg" = "/tmp".
Proof. reflexivity. Qed.

(** The same for [ReplaceFile] and for the handlers' 404 answer. *)
Lemma ReplaceFile_never_returns_service_ErrFileNotFound
    (fileID : string) (newFile : FileHeader) (env : Env) (w w' : World)
    (r : result string) (tr : list Event) :
  service.ReplaceFile fileID newFile env w = (r, w', tr) →
  r ≠ Err service_ErrFileNotFound.
Proof.
  unfold_ops. red_world.
  walk; intros [= <- <- <-]; discriminate.
Qed.

Lemma handler_DeleteFile_never_answers_404
    (c : Context) (env : Env) (w w' : World) (resp : Response) (tr : list Event) :
  handler.DeleteFile c env w = (Ok resp, w', tr) →
  status resp ≠ StatusNotFound.
Proof.
  unfold handler.DeleteFile, bind at 1, ask at 1.
  destruct (uuid_Parse env (c_Param c "id")); cbn [negb].
  - unfold bind, try.
    destruct (service.DeleteFile (c_Param c "id") env w) as [[r w1] l1] eqn:Hrun.
    apply DeleteFile_never_returns_service_ErrFileNotFound in Hrun.
    destruct r as [[] | e].
    + intros [= <- <- <-]. discriminate.
    + destruct (decide (e = service_ErrFileNotFound)) as [-> | _];
        [contradiction |].
      intros [= <- <- <-]. discriminate.
  - intros [= <- <- <-]. discriminate.
Qed.

(** * Further properties of the code *)

(** ** Upload *)

(** What a successful [UploadFile] leaves behind. *)
Lemma upload_success_state
    (file : FileHeader) (env : Env) (w w' : World) (url : string) (tr : list Event) :
  service.UploadFile file env w = (Ok url, w', tr) →
  let id := uuid_at env (tick w) in
  let ext := filepath_Ext (Filename file) in
  let declared := Header_Get (Header file) "Content-Type" in
  url = "http://" ++ EndpointHost env ++ "/" ++ Bucket env ++ "/" ++ id ++ ext
  ∧ objects w' !! (id ++ ext)
    = Some {| obj_data := content file; obj_contentType := declared |}
  ∧ ∃ md,
      files w' !! id = Some md
      ∧ ID md = id
      ∧ OriginalName md ++ ext = Filename file
      ∧ FileSize md = Size file
      ∧ ContentType md = declared
      ∧ BucketName md = Bucket env
      ∧ URL md = url.
Proof.
  intros Hrun id ext declared. subst id ext declared.
  revert Hrun. unfold_ops. red_world.
  walk; intros [= <- <- <-]; red_world.
  all: split; [reflexivity |].
  all: split; [apply lookup_insert_eq |].
  all: eexists; split; [apply lookup_insert_eq |]; red_world.
  all: repeat split; symmetry; apply filename_is_stem_and_ext.
Qed.



Lemma GetFileMetadata_found
    (fileID : string) (md : FileMetadata) (env : Env) (w : World) :
  files w !! fileID = Some md →
  fault env (tick w) = None →
  service.GetFileMetadata fileID env w
  = (Ok md, set_tick (S (tick w)) w, [Ev (CallFindOne fileID) None]).
Proof.
  intros Hmd F. unfold_ops. red_world. rewrite F, Hmd. reflexivity.
Qed.

Lemma GetFileMetadata_absent
    (fileID : string) (env : Env) (w : World) :
  files w !! fileID = None →
  fault env (tick w) = None →
  service.GetFileMetadata fileID env w
  = (Err repository_ErrDocumentNotFound, set_tick (S (tick w)) w,
     [Ev (CallFindOne fileID) (Some (Driver mongo_ErrNoDocuments))]).
Proof.
  intros Hmd F. unfold_ops. red_world. rewrite F, Hmd. reflexivity.
Qed.

(** X2. Upload then get: when [UploadFile] has succeeded and the next
    [FindOne] is answered, [GetFileMetadata] on the upload's identifier
    returns a record with the uploaded file's size and declared content
    type, the returned URL, and the filename without its extension; it
    changes nothing. *)
Theorem upload_then_get_returns_the_uploaded_record
    (file : FileHeader) (env : Env) (w w1 : World) (url : string) (tr : list Event) :
  service.UploadFile file env w = (Ok url, w1, tr) →
  fault env (tick w1) = None →
  ∃ md w2 tr2,
    service.GetFileMetadata (uuid_at env (tick w)) env w1 = (Ok md, w2, tr2)
    ∧ ID md = uuid_at env (tick w)
    ∧ OriginalName md ++ filepath_Ext (Filename file) = Filename file
    ∧ FileSize md = Size file
    ∧ ContentType md = Header_Get (Header file) "Content-Type"
    ∧ URL md = url
    ∧ objects w2 = objects w1 ∧ files w2 = files w1 ∧ disk w2 = disk w1.
Proof.
  intros Hrun F.
  destruct (upload_success_state _ _ _ _ _ _ Hrun)
    as (_ & _ & md & Hmd & Hid & Hname & Hsize & Hct & _ & Hurl).
  exists md. eexists _, _.
  split; [apply GetFileMetadata_found; assumption |].
  repeat split; assumption.
Qed.

Lemma upload_then_get_returns_the_uploaded_record_witness :
  ∃ md w2 tr2,
    service.GetFileMetadata Scenario.some_uuid Scenario.env_ok Scenario.world_uploaded
    = (Ok md, w2, tr2)
    ∧ ID md = Scenario.some_uuid
    ∧ OriginalName md ++ ".jpg" = "photo.jpg"
    ∧ FileSize md = 8%Z
    ∧ ContentType md = "text/html"
    ∧ URL md = "http://localhost:9000/user-uploads/" ++ Scenario.some_uuid ++ ".jpg"
    ∧ objects w2 = objects Scenario.world_uploaded
    ∧ files w2 = files Scenario.world_uploaded
    ∧ disk w2 = disk Scenario.world_uploaded.
Proof.
  apply (upload_then_get_returns_the_uploaded_record
           Scenario.photo_jpg Scenario.env_ok Scenario.world_empty
           Scenario.world_uploaded
           ("http://localhost:9000/user-uploads/" ++ Scenario.some_uuid ++ ".jpg")
           (service.UploadFile Scenario.photo_jpg Scenario.env_ok
              Scenario.world_empty).2).
  - vm_compute. reflexivity.
  - reflexivity.
Defined.

(** X3. A failed [UploadFile], whatever failed, leaves the collection as it
    was: no record is created by an upload that returns an error. *)
Theorem failed_upload_creates_no_record
    (file : FileHeader) (env : Env) (w w' : World) (e : error) (tr : list Event) :
  service.UploadFile file env w = (Err e, w', tr) →
  files w' = files w.
Proof.
  unfold_ops. red_world.
  walk; intros [= <- <- <-]; reflexivity.
Qed.

Lemma failed_upload_creates_no_record_witness :
  files Scenario.upload_insert_fails.1.2 = files Scenario.world_empty.
Proof.
  apply (failed_upload_creates_no_record
           Scenario.photo_jpg
           (Scenario.env_failing 5 (other_error "write concern timeout"))
           Scenario.world_empty Scenario.upload_insert_fails.1.2
           (Driver (other_error "write concern timeout"))
           Scenario.upload_insert_fails.2).
  vm_compute. reflexivity.
Defined.

(** X4. Whatever happens, [UploadFile] touches one record, one object and
    one local file: every other record, object and file is as before. *)
Theorem upload_touches_only_its_own_keys
    (file : FileHeader) (env : Env) (w w' : World) (r : result string)
    (tr : list Event) :
  service.UploadFile file env w = (r, w', tr) →
  let id := uuid_at env (tick w) in
  let key := id ++ filepath_Ext (Filename file) in
  (∀ k, k ≠ id → files w' !! k = files w !! k)
  ∧ (∀ k, k ≠ key → objects w' !! k = objects w !! k)
  ∧ (∀ p, p ≠ filepath_Join (TempDir env) key → disk w' !! p = disk w !! p).
Proof.
  intros Hrun id key. subst id key. revert Hrun. unfold_ops. red_world.
  walk; intros [= <- <- <-]; red_world.
  all: repeat split; intros k Hk.
  all: rewrite ?lookup_delete_ne, ?lookup_insert_ne by congruence; reflexivity.
Qed.

Lemma upload_touches_only_its_own_keys_witness :
  (∀ k, k ≠ Scenario.some_uuid →
        files Scenario.world_uploaded !! k = files Scenario.world_empty !! k)
  ∧ (∀ k, k ≠ Scenario.some_uuid ++ ".jpg" →
          objects Scenario.world_uploaded !! k = objects Scenario.world_empty !! k)
  ∧ (∀ p, p ≠ filepath_Join "/tmp" (Scenario.some_uuid ++ ".jpg") →
          disk Scenario.world_uploaded !! p = disk Scenario.world_empty !! p).
Proof.
  apply (upload_touches_only_its_own_keys
           Scenario.photo_jpg Scenario.env_ok Scenario.world_empty
           Scenario.world_uploaded
           (service.UploadFile Scenario.photo_jpg Scenario.env_ok
              Scenario.world_empty).1.1
           (service.UploadFile Scenario.photo_jpg Scenario.env_ok
              Scenario.world_empty).2).
  vm_compute. reflexivity.
Defined.

(** X5. Once [UploadFile] has written the staging file, its last call is
    [os.Remove] of that file, on success and on every later failure; and
    when that call reports no error the staging file is gone when the
    operation returns. *)
Theorem upload_staging_file_removed_after_save
    (file : FileHeader) (env : Env) (w w' : World) (r : result string)
    (tr : list Event) (path : string) :
  service.UploadFile file env w = (r, w', tr) →
  Ev (CallCopy path) None ∈ tr →
  ∃ o, last tr = Some (Ev (CallRemove path) o)
       ∧ (o = None → disk w' !! path = None).
Proof.
  intros Hrun Hcopy. revert Hrun. unfold_ops. red_world.
  walk; intros [= <- <- <-]; log_cases Hcopy.
  all: injection Hcopy as <-; eexists; split; [reflexivity |]; red_world.
  all: try discriminate.
  all: intros _; apply lookup_delete_eq.
Qed.

Lemma upload_staging_file_removed_after_save_witness :
  ∃ o, last Scenario.upload_put_fails.2
       = Some (Ev (CallRemove ("/tmp/" ++ Scenario.some_uuid ++ ".jpg")) o)
       ∧ (o = None →
          disk Scenario.upload_put_fails.1.2
            !! ("/tmp/" ++ Scenario.some_uuid ++ ".jpg") = None).
Proof.
  apply (upload_staging_file_removed_after_save
           Scenario.photo_jpg
           (Scenario.env_failing 4 (other_error "connection refused"))
           Scenario.world_empty Scenario.upload_put_fails.1.2
           Scenario.upload_put_fails.1.1 Scenario.upload_put_fails.2
           ("/tmp/" ++ Scenario.some_uuid ++ ".jpg")).
  - vm_compute. reflexivity.
  - apply (bool_decide_unpack _). vm_compute. exact I.
Defined.

(** ** Get, Delete, Replace *)

(** X6. [GetFileMetadata] only reads: whatever it returns, the bucket, the
    collection and the disk are as before and its one call is [FindOne];
    and a record it returns is the record stored under that identifier. *)
Theorem get_is_read_only_and_returns_stored_records
    (fileID : string) (env : Env) (w w' : World) (r : result FileMetadata)
    (tr : list Event) :
  service.GetFileMetadata fileID env w = (r, w', tr) →
  objects w' = objects w ∧ files w' = files w ∧ disk w' = disk w
  ∧ (∃ o, tr = [Ev (CallFindOne fileID) o])
  ∧ (∀ md, r = Ok md → files w !! fileID = Some md).
Proof.
  unfold_ops. red_world.
  walk; intros [= <- <- <-]; red_world.
  all: repeat split; eauto; intros md; congruence.
Qed.

Lemma get_is_read_only_and_returns_stored_records_witness :
  objects (set_tick 1 Scenario.world_record_only) = objects Scenario.world_record_only
  ∧ files (set_tick 1 Scenario.world_record_only) = files Scenario.world_record_only
  ∧ disk (set_tick 1 Scenario.world_record_only) = disk Scenario.world_record_only
  ∧ (∃ o, [Ev (CallFindOne Scenario.some_uuid) None]
          = [Ev (CallFindOne Scenario.some_uuid) o])
  ∧ (∀ md, Ok Scenario.record_only = Ok md →
           files Scenario.world_record_only !! Scenario.some_uuid = Some md).
Proof.
  apply (get_is_read_only_and_returns_stored_records
           Scenario.some_uuid Scenario.env_ok Scenario.world_record_only
           (set_tick 1 Scenario.world_record_only) (Ok Scenario.record_only)
           [Ev (CallFindOne Scenario.some_uuid) None]).
  vm_compute. reflexivity.
Defined.

(** X7. Delete then get: after a successful [DeleteFile] the record is gone,
    every other record is untouched, and [GetFileMetadata] and a second
    [DeleteFile] on the same identifier (the driver answering) both return
    [repository.ErrDocumentNotFound] after their [FindOne] call. *)
Theorem delete_then_get_and_second_delete_find_nothing
    (fileID : string) (env : Env) (w w' : World) (tr : list Event) :
  service.DeleteFile fileID env w = (Ok tt, w', tr) →
  fault env (tick w') = None →
  files w' !! fileID = None
  ∧ (∀ k, k ≠ fileID → files w' !! k = files w !! k)
  ∧ service.GetFileMetadata fileID env w'
    = (Err repository_ErrDocumentNotFound, set_tick (S (tick w')) w',
       [Ev (CallFindOne fileID) (Some (Driver mongo_ErrNoDocuments))])
  ∧ service.DeleteFile fileID env w'
    = (Err repository_ErrDocumentNotFound, set_tick (S (tick w')) w',
       [Ev (CallFindOne fileID) (Some (Driver mongo_ErrNoDocuments))]).
Proof.
  intros Hrun F.
  assert (Hgone : files w' !! fileID = None
                  ∧ ∀ k, k ≠ fileID → files w' !! k = files w !! k).
  { clear F. revert Hrun. unfold_ops. red_world.
    walk; intros [= <- <-]; red_world.
    split; [apply lookup_delete_eq |].
    intros k Hk. apply lookup_delete_ne. congruence. }
  destruct Hgone as [Hgone Hothers].
  split; [exact Hgone |]. split; [exact Hothers |].
  split; [by apply GetFileMetadata_absent |].
  unfold_ops. red_world. rewrite F, Hgone. reflexivity.
Qed.

Lemma delete_then_get_and_second_delete_find_nothing_witness :
  files Scenario.delete_uploaded.1.2 !! Scenario.some_uuid = None
  ∧ (∀ k, k ≠ Scenario.some_uuid →
          files Scenario.delete_uploaded.1.2 !! k = files Scenario.world_uploaded !! k)
  ∧ service.GetFileMetadata Scenario.some_uuid Scenario.env_ok
      Scenario.delete_uploaded.1.2
    = (Err repository_ErrDocumentNotFound,
       set_tick (S (tick Scenario.delete_uploaded.1.2)) Scenario.delete_uploaded.1.2,
       [Ev (CallFindOne Scenario.some_uuid) (Some (Driver mongo_ErrNoDocuments))])
  ∧ service.DeleteFile Scenario.some_uuid Scenario.env_ok
      Scenario.delete_uploaded.1.2
    = (Err repository_ErrDocumentNotFound,
       set_tick (S (tick Scenario.delete_uploaded.1.2)) Scenario.delete_uploaded.1.2,
       [Ev (CallFindOne Scenario.some_uuid) (Some (Driver mongo_ErrNoDocuments))]).
Proof.
  apply (delete_then_get_and_second_delete_find_nothing
           Scenario.some_uuid Scenario.env_ok Scenario.world_uploaded
           Scenario.delete_uploaded.1.2 Scenario.delete_uploaded.2).
  - vm_compute. reflexivity.
  - reflexivity.
Defined.

(** X8. [DeleteFile] removes the blob before the record and does not put it
    back: when [RemoveObject] has succeeded and [DeleteOne] then fails with
    [e], [DeleteFile] returns [e], the record is still in the collection and
    the object it was asked to remove is not in the bucket. *)
Theorem delete_metadata_failure_leaves_record_without_blob
    (fileID : string) (env : Env) (w w' : World) (r : result unit)
    (tr : list Event) (obj : string) (e : error) :
  service.DeleteFile fileID env w = (r, w', tr) →
  Ev (CallRemoveObject obj) None ∈ tr →
  Ev (CallDeleteOne fileID) (Some e) ∈ tr →
  r = Err e
  ∧ is_Some (files w' !! fileID)
  ∧ files w' = files w
  ∧ objects w' !! obj = None.
Proof.
  intros Hrun Hrm Hdel. revert Hrun. unfold_ops. red_world.
  walk; intros [= <- <- <-]; log_cases Hrm; log_cases Hdel.
  injection Hrm as <-. injection Hdel as <-. red_world.
  split; [reflexivity |]. split; [rewrite L; by eexists |].
  split; [reflexivity | apply lookup_delete_eq].
Qed.

Lemma delete_metadata_failure_leaves_record_without_blob_witness :
  (service.DeleteFile Scenario.some_uuid
     (Scenario.env_failing 2 (other_error "connection reset"))
     Scenario.world_record_only).1.1
  = Err (Driver (other_error "connection reset"))
  ∧ is_Some (files (service.DeleteFile Scenario.some_uuid
                      (Scenario.env_failing 2 (other_error "connection reset"))
                      Scenario.world_record_only).1.2 !! Scenario.some_uuid)
  ∧ files (service.DeleteFile Scenario.some_uuid
             (Scenario.env_failing 2 (other_error "connection reset"))
             Scenario.world_record_only).1.2
    = files Scenario.world_record_only
  ∧ objects (service.DeleteFile Scenario.some_uuid
               (Scenario.env_failing 2 (other_error "connection reset"))
               Scenario.world_record_only).1.2 !! Scenario.some_uuid = None.
Proof.
  apply (delete_metadata_failure_leaves_record_without_blob
           Scenario.some_uuid
           (Scenario.env_failing 2 (other_error "connection reset"))
           Scenario.world_record_only
           (service.DeleteFile Scenario.some_uuid
              (Scenario.env_failing 2 (other_error "connection reset"))
              Scenario.world_record_only).1.2
           (service.DeleteFile Scenario.some_uuid
              (Scenario.env_failing 2 (other_error "connection reset"))
              Scenario.world_record_only).1.1
           (service.DeleteFile Scenario.some_uuid
              (Scenario.env_failing 2 (other_error "connection reset"))
              Scenario.world_record_only).2
           Scenario.some_uuid
           (Driver (other_error "connection reset"))).
  - vm_compute. reflexivity.
  - apply (bool_decide_unpack _). vm_compute. exact I.
  - apply (bool_decide_unpack _). vm_compute. exact I.
Defined.



(** X10. [ReplaceFile] deletes the old blob before it writes the new one and
    does not restore it: when the new blob's [FPutObject] fails with [e],
    [ReplaceFile] returns the wrapped [e], the record is unchanged, and the
    key computed from the record is no longer in the bucket. *)
Theorem replace_put_failure_loses_old_blob_keeps_record
    (fileID : string) (newFile : FileHeader) (env : Env) (w w' : World)
    (r : result string) (tr : list Event) (obj path ct : string) (e : error) :
  service.ReplaceFile fileID newFile env w = (r, w', tr) →
  Ev (CallFPutObject obj path ct) (Some e) ∈ tr →
  r = Err (fmt_Errorf "upload error" e)
  ∧ files w' = files w
  ∧ ∃ old,
      files w !! fileID = Some old
      ∧ objects w' = delete (fileID ++ filepath_Ext (OriginalName old)) (objects w).
Proof.
  intros Hrun Hput. revert Hrun. unfold_ops. red_world.
  walk; intros [= <- <- <-]; log_cases Hput.
  all: injection Hput as _ _ _ <-; red_world.
  all: split; [reflexivity |]; split; [reflexivity |].
  all: eexists; split; reflexivity.
Qed.

Lemma replace_put_failure_loses_old_blob_keeps_record_witness :
  (service.ReplaceFile Scenario.some_uuid Scenario.photo_jpg
     (Scenario.env_failing 6 (other_error "connection refused"))
     Scenario.world_record_only).1.1
  = Err (fmt_Errorf "upload error" (Driver (other_error "connection refused")))
  ∧ files (service.ReplaceFile Scenario.some_uuid Scenario.photo_jpg
             (Scenario.env_failing 6 (other_error "connection refused"))
             Scenario.world_record_only).1.2
    = files Scenario.world_record_only
  ∧ ∃ old,
      files Scenario.world_record_only !! Scenario.some_uuid = Some old
      ∧ objects (service.ReplaceFile Scenario.some_uuid Scenario.photo_jpg
                   (Scenario.env_failing 6 (other_error "connection refused"))
                   Scenario.world_record_only).1.2
        = delete (Scenario.some_uuid ++ filepath_Ext (OriginalName old))
                 (objects Scenario.world_record_only).
Proof.
  apply (replace_put_failure_loses_old_blob_keeps_record
           Scenario.some_uuid Scenario.photo_jpg
           (Scenario.env_failing 6 (other_error "connection refused"))
           Scenario.world_record_only
           (service.ReplaceFile Scenario.some_uuid Scenario.photo_jpg
              (Scenario.env_failing 6 (other_error "connection refused"))
              Scenario.world_record_only).1.2
           (service.ReplaceFile Scenario.some_uuid Scenario.photo_jpg
              (Scenario.env_failing 6 (other_error "connection refused"))
              Scenario.world_record_only).1.1
           (service.ReplaceFile Scenario.some_uuid Scenario.photo_jpg
              (Scenario.env_failing 6 (other_error "connection refused"))
              Scenario.world_record_only).2
           (Scenario.some_uuid ++ ".jpg")
           ("/tmp/" ++ Scenario.some_uuid ++ ".jpg")
           "text/html"
           (Driver (other_error "connection refused"))).
  - vm_compute. reflexivity.
  - apply (bool_decide_unpack _). vm_compute. exact I.
Defined.

(** X11. When the new blob has been written and the metadata update then
    fails with [e], [ReplaceFile] calls [RemoveObject] once more, on the new
    key, and returns the update's error whatever that call returned
    ([mongo.ErrNoDocuments] as [repository.ErrDocumentNotFound]); the
    collection is unchanged. *)
Theorem replace_update_failure_compensates_once
    (fileID : string) (newFile : FileHeader) (env : Env) (w w' : World)
    (r : result string) (tr : list Event) (doc : FileMetadata) (e : error) :
  service.ReplaceFile fileID newFile env w = (r, w', tr) →
  Ev (CallFindOneAndUpdate fileID doc) (Some e) ∈ tr →
  r = Err (if errors_Is e (Driver mongo_ErrNoDocuments)
           then repository_ErrDocumentNotFound else e)
  ∧ files w' = files w
  ∧ ∃ oldKey o,
      List.filter is_RemoveObject tr
      = [Ev (CallRemoveObject oldKey) None;
         Ev (CallRemoveObject (fileID ++ filepath_Ext (Filename newFile))) o].
Proof.
  intros Hrun Hupd. revert Hrun. unfold_ops. red_world.
  walk; intros [= <- <- <-]; log_cases Hupd.
  all: injection Hupd as _ ->; red_world.
  all: rewrite ?errors_Is_NoDocuments_Driver, ?K; cbn.
  all: split; [reflexivity |]; split; [reflexivity |].
  all: eexists _, _; reflexivity.
Qed.

Lemma replace_update_failure_compensates_once_witness :
  (service.ReplaceFile Scenario.some_uuid Scenario.photo_jpg
     (Scenario.env_failing 7 (other_error "write concern timeout"))
     Scenario.world_record_only).1.1
  = Err (if errors_Is (Driver (other_error "write concern timeout"))
              (Driver mongo_ErrNoDocuments)
         then repository_ErrDocumentNotFound
         else Driver (other_error "write concern timeout"))
  ∧ files (service.ReplaceFile Scenario.some_uuid Scenario.photo_jpg
             (Scenario.env_failing 7 (other_error "write concern timeout"))
             Scenario.world_record_only).1.2
    = files Scenario.world_record_only
  ∧ ∃ oldKey o,
      List.filter is_RemoveObject
        (service.ReplaceFile Scenario.some_uuid Scenario.photo_jpg
           (Scenario.env_failing 7 (other_error "write concern timeout"))
           Scenario.world_record_only).2
      = [Ev (CallRemoveObject oldKey) None;
         Ev (CallRemoveObject (Scenario.some_uuid ++ ".jpg")) o].
Proof.
  apply (replace_update_failure_compensates_once
           Scenario.some_uuid Scenario.photo_jpg
           (Scenario.env_failing 7 (other_error "write concern timeout"))
           Scenario.world_record_only
           (service.ReplaceFile Scenario.some_uuid Scenario.photo_jpg
              (Scenario.env_failing 7 (other_error "write concern timeout"))
              Scenario.world_record_only).1.2
           (service.ReplaceFile Scenario.some_uuid Scenario.photo_jpg
              (Scenario.env_failing 7 (other_error "write concern timeout"))
              Scenario.world_record_only).1.1
           (service.ReplaceFile Scenario.some_uuid Scenario.photo_jpg
              (Scenario.env_failing 7 (other_error "write concern timeout"))
              Scenario.world_record_only).2
           {| ID := Scenario.some_uuid;
              OriginalName := "photo";
              FileSize := 8;
              ContentType := "text/html";
              BucketName := "user-uploads";
              UploadDate := 7;
              URL := "http://localhost:9000/user-uploads/"
                     ++ Scenario.some_uuid ++ ".jpg" |}
           (Driver (other_error "write concern timeout"))).
  - vm_compute. reflexivity.
  - apply (bool_decide_unpack _). vm_compute. exact I.
Defined.

(** X12. No run of [ReplaceFile] creates or removes a record: the set of
    identifiers in the collection is the same before and after, whether it
    succeeds or fails. *)
Theorem replace_preserves_the_set_of_ids
    (fileID : string) (newFile : FileHeader) (env : Env) (w w' : World)
    (r : result string) (tr : list Event) :
  service.ReplaceFile fileID newFile env w = (r, w', tr) →
  dom (files w') = dom (files w).
Proof.
  unfold_ops. red_world.
  walk; intros [= <- <- <-]; red_world; try reflexivity.
  all: match goal with L : Some _ = Some _ |- _ => injection L as <- end.
  all: apply dom_insert_lookup_L; rewrite L0; by eexists.
Qed.

Lemma replace_preserves_the_set_of_ids_witness :
  dom (files (service.ReplaceFile Scenario.some_uuid Scenario.photo_jpg
                Scenario.env_ok Scenario.world_record_only).1.2)
  = dom (files Scenario.world_record_only).
Proof.
  apply (replace_preserves_the_set_of_ids
           Scenario.some_uuid Scenario.photo_jpg Scenario.env_ok
           Scenario.world_record_only
           (service.ReplaceFile Scenario.some_uuid Scenario.photo_jpg
              Scenario.env_ok Scenario.world_record_only).1.2
           (service.ReplaceFile Scenario.some_uuid Scenario.photo_jpg
              Scenario.env_ok Scenario.world_record_only).1.1
           (service.ReplaceFile Scenario.some_uuid Scenario.photo_jpg
              Scenario.env_ok Scenario.world_record_only).2).
  vm_compute. reflexivity.
Defined.

(** ** Repository *)

(** X13. [MongoRepository.UpdateMetadata] never inserts and never renames:
    when it succeeds a record was stored under [fileID], and it now holds
    the six fields of [metadata] under the old [_id], whatever
    [metadata.ID] is; when it fails the collection is unchanged, and for an
    identifier without a record (the driver answering) the error is
    [ErrDocumentNotFound]. *)
Theorem UpdateMetadata_sets_six_fields_and_keeps_id
    (fileID : string) (metadata : FileMetadata) (env : Env) (w w' : World)
    (r : result unit) (tr : list Event) :
  repository.mongo_UpdateMetadata fileID metadata env w = (r, w', tr) →
  match r with
  | Ok _ =>
      ∃ old,
        files w !! fileID = Some old
        ∧ files w'
          = <[fileID := {| ID := ID old;
                           OriginalName := OriginalName metadata;
                           FileSize := FileSize metadata;
                           ContentType := ContentType metadata;
                           BucketName := BucketName metadata;
                           UploadDate := UploadDate metadata;
                           URL := URL metadata |}]> (files w)
  | Err e =>
      files w' = files w
      ∧ (fault env (tick w) = None → files w !! fileID = None
                                     ∧ e = repository_ErrDocumentNotFound)
  end.
Proof.
  unfold_ops. red_world.
  walk; intros [= <- <- <-]; red_world.
  all: try match goal with
             | K : bool_decide (?x = ?x) = false |- _ =>
                 by rewrite bool_decide_eq_true_2 in K
             end.
  all: first
         [ eexists; split; reflexivity
         | split; [reflexivity |];
           intros ?; first [congruence | split; reflexivity] ].
Qed.

Lemma UpdateMetadata_sets_six_fields_and_keeps_id_witness :
  ∃ old,
    files Scenario.world_record_only !! Scenario.some_uuid = Some old
    ∧ files (repository.mongo_UpdateMetadata Scenario.some_uuid
               Scenario2.other_record Scenario.env_ok
               Scenario.world_record_only).1.2
      = <[Scenario.some_uuid :=
            {| ID := ID old;
               OriginalName := OriginalName Scenario2.other_record;
               FileSize := FileSize Scenario2.other_record;
               ContentType := ContentType Scenario2.other_record;
               BucketName := BucketName Scenario2.other_record;
               UploadDate := UploadDate Scenario2.other_record;
               URL := URL Scenario2.other_record |}]>
        (files Scenario.world_record_only).
Proof.
  apply (UpdateMetadata_sets_six_fields_and_keeps_id
           Scenario.some_uuid Scenario2.other_record Scenario.env_ok
           Scenario.world_record_only
           (repository.mongo_UpdateMetadata Scenario.some_uuid
              Scenario2.other_record Scenario.env_ok
              Scenario.world_record_only).1.2
           (Ok tt)
           (repository.mongo_UpdateMetadata Scenario.some_uuid
              Scenario2.other_record Scenario.env_ok
              Scenario.world_record_only).2).
  vm_compute. reflexivity.
Defined.

(** X14. [MongoRepository.DeleteMetadata] succeeds only when it has removed
    a document: on success a record was stored under [fileID] and is gone;
    on failure the collection is unchanged, and when the driver answered,
    the failure means that no record was stored ([DeletedCount == 0]) and
    the error is [ErrDocumentNotFound]. *)
Theorem DeleteMetadata_succeeds_only_by_removing
    (fileID : string) (env : Env) (w w' : World) (r : result unit)
    (tr : list Event) :
  repository.mongo_DeleteMetadata fileID env w = (r, w', tr) →
  match r with
  | Ok _ => is_Some (files w !! fileID) ∧ files w' = delete fileID (files w)
  | Err e =>
      files w' = files w
      ∧ (fault env (tick w) = None → files w !! fileID = None
                                     ∧ e = repository_ErrDocumentNotFound)
  end.
Proof.
  unfold_ops. red_world.
  walk; intros [= <- <- <-]; red_world.
  all: first
         [ split; [by eexists | reflexivity]
         | split; [reflexivity |];
           intros ?; first [congruence | split; reflexivity] ].
Qed.

Lemma DeleteMetadata_succeeds_only_by_removing_witness :
  files (repository.mongo_DeleteMetadata Scenario.some_uuid Scenario.env_ok
           Scenario.world_empty).1.2 = files Scenario.world_empty
  ∧ (fault Scenario.env_ok (tick Scenario.world_empty) = None →
     files Scenario.world_empty !! Scenario.some_uuid = None
     ∧ repository_ErrDocumentNotFound = repository_ErrDocumentNotFound).
Proof.
  apply (DeleteMetadata_succeeds_only_by_removing
           Scenario.some_uuid Scenario.env_ok Scenario.world_empty
           (repository.mongo_DeleteMetadata Scenario.some_uuid Scenario.env_ok
              Scenario.world_empty).1.2
           (Err repository_ErrDocumentNotFound)
           (repository.mongo_DeleteMetadata Scenario.some_uuid Scenario.env_ok
              Scenario.world_empty).2).
  vm_compute. reflexivity.
Defined.

(** ** Handlers *)

(** X15. An identifier that [uuid.Parse] rejects is answered 400 "Invalid
    file ID format" by the get, delete and replace handlers without any
    call to a store or to the file: the world is untouched and the log is
    empty. *)
Theorem invalid_id_is_rejected_before_any_call
    (c : Context) (env : Env) (w : World) :
  uuid_Parse env (c_Param c "id") = false →
  let bad := {| status := StatusBadRequest;
                body := ErrorResponse "Invalid file ID format" |} in
  handler.GetFileMetadata c env w = (Ok bad, w, [])
  ∧ handler.DeleteFile c env w = (Ok bad, w, [])
  ∧ handler.ReplaceFile c env w = (Ok bad, w, []).
Proof.
  intros Hbad bad. subst bad.
  unfold handler.GetFileMetadata, handler.DeleteFile, handler.ReplaceFile.
  unfold bind, ask. rewrite Hbad. cbn. auto.
Qed.

Lemma invalid_id_is_rejected_before_any_call_witness :
  handler.GetFileMetadata (Scenario2.request_of "42" Scenario.photo_jpg)
    Scenario.env_ok Scenario.world_record_only
  = (Ok {| status := StatusBadRequest;
           body := ErrorResponse "Invalid file ID format" |},
     Scenario.world_record_only, [])
  ∧ handler.DeleteFile (Scenario2.request_of "42" Scenario.photo_jpg)
      Scenario.env_ok Scenario.world_record_only
    = (Ok {| status := StatusBadRequest;
             body := ErrorResponse "Invalid file ID format" |},
       Scenario.world_record_only, [])
  ∧ handler.ReplaceFile (Scenario2.request_of "42" Scenario.photo_jpg)
      Scenario.env_ok Scenario.world_record_only
    = (Ok {| status := StatusBadRequest;
             body := ErrorResponse "Invalid file ID format" |},
       Scenario.world_record_only, []).
Proof.
  apply (invalid_id_is_rejected_before_any_call
           (Scenario2.request_of "42" Scenario.photo_jpg)
           Scenario.env_ok Scenario.world_record_only).
  reflexivity.
Defined.



Lemma no_extension_is_not_allowed :
  map_index allowedExtensions (strings_ToLower "") = false.
Proof. vm_compute. reflexivity. Qed.

(** X17. A part without bytes fails the sniffing read with [io.EOF]: an
    upload of an empty file with an allowed extension, and a replace with
    an empty file, are answered 400 "Invalid file content", whatever else
    happens, and nothing is written to a store or to the disk. *)
Theorem empty_file_is_answered_invalid_content
    (c : Context) (file : FileHeader) (env : Env) (w : World) :
  c_FormFile c "file" = Ok file →
  content file = [] →
  let bad := {| status := StatusBadRequest;
                body := ErrorResponse "Invalid file content" |} in
  (map_index allowedExtensions
     (strings_ToLower (filepath_Ext (Filename file))) = true →
   ∃ w' tr,
     handler.UploadFile c env w = (Ok bad, w', tr)
     ∧ objects w' = objects w ∧ files w' = files w ∧ disk w' = disk w
     ∧ List.filter is_store_write tr = [])
  ∧ (uuid_Parse env (c_Param c "id") = true →
     ∃ w' tr,
       handler.ReplaceFile c env w = (Ok bad, w', tr)
       ∧ objects w' = objects w ∧ files w' = files w ∧ disk w' = disk w
       ∧ List.filter is_store_write tr = []).
Proof.
  intros Hform Hempty bad. subst bad. split.
  - intros Hext. unfold handler.UploadFile. rewrite Hform, Hext.
    unfold_ops. red_world. rewrite Hempty.
    walk; eexists _, _; (split; [reflexivity |]); red_world; auto.
  - intros Hid. unfold handler.ReplaceFile. unfold_ops. rewrite Hid, Hform.
    red_world. rewrite Hempty.
    walk; eexists _, _; (split; [reflexivity |]); red_world; auto.
Qed.

Lemma empty_file_is_answered_invalid_content_witness :
  (map_index allowedExtensions
     (strings_ToLower (filepath_Ext (Filename Scenario2.empty_png))) = true →
   ∃ w' tr,
     handler.UploadFile (Scenario2.request_of Scenario.some_uuid Scenario2.empty_png)
       Scenario.env_ok Scenario.world_record_only
     = (Ok {| status := StatusBadRequest;
              body := ErrorResponse "Invalid file content" |}, w', tr)
     ∧ objects w' = objects Scenario.world_record_only
     ∧ files w' = files Scenario.world_record_only
     ∧ disk w' = disk Scenario.world_record_only
     ∧ List.filter is_store_write tr = [])
  ∧ (uuid_Parse Scenario.env_ok
       (c_Param (Scenario2.request_of Scenario.some_uuid Scenario2.empty_png) "id")
     = true →
     ∃ w' tr,
       handler.ReplaceFile (Scenario2.request_of Scenario.some_uuid Scenario2.empty_png)
         Scenario.env_ok Scenario.world_record_only
       = (Ok {| status := StatusBadRequest;
                body := ErrorResponse "Invalid file content" |}, w', tr)
       ∧ objects w' = objects Scenario.world_record_only
       ∧ files w' = files Scenario.world_record_only
       ∧ disk w' = disk Scenario.world_record_only
       ∧ List.filter is_store_write tr = []).
Proof.
  apply (empty_file_is_answered_invalid_content
           (Scenario2.request_of Scenario.some_uuid Scenario2.empty_png)
           Scenario2.empty_png Scenario.env_ok Scenario.world_record_only).
  - vm_compute. reflexivity.
  - reflexivity.
Defined.

(** X18. The replace handler checks the sniffed type against its own,
    shorter list and checks no extension: for a valid identifier and a part
    sniffed as [ct], a [ct] outside the list is answered 400 "Unsupported
    file type" with no store or disk touched, and a [ct] in the list sends
    the file to [service.ReplaceFile], whatever its filename is. *)
Theorem replace_gate_checks_sniffed_type_only
    (c : Context) (env : Env) (w w1 : World) (file : FileHeader)
    (ct : string) (l1 : list Event) :
  uuid_Parse env (c_Param c "id") = true →
  c_FormFile c "file" = Ok file →
  handler.detectContentType file env w = (Ok ct, w1, l1) →
  (map_index allowedTypes_replace ct = false →
     handler.ReplaceFile c env w
     = (Ok {| status := StatusBadRequest;
              body := ErrorResponse "Unsupported file type" |}, w1, l1)
     ∧ objects w1 = objects w ∧ files w1 = files w ∧ disk w1 = disk w
     ∧ List.filter is_store_write l1 = [])
  ∧ (map_index allowedTypes_replace ct = true →
     ∃ r w2 l2,
       service.ReplaceFile (c_Param c "id") file env w1 = (r, w2, l2)
       ∧ handler.ReplaceFile c env w
         = (Ok (replace_response r), w2, (l1 ++ l2)%list)).
Proof.
  intros Hid Hform Hsniff. split; intros Htype.
  - split.
    + unfold handler.ReplaceFile. unfold bind at 1, ask at 1.
      rewrite Hid, Hform. cbn [negb].
      unfold bind at 1, try at 1. rewrite Hsniff. rewrite Htype. cbn [negb].
      unfold c_JSON, ret. rewrite app_nil_r. reflexivity.
    + revert Hsniff. unfold_ops. red_world.
      walk; intros [= <- <- <-]; red_world; auto.
  - destruct (service.ReplaceFile (c_Param c "id") file env w1)
      as [[r w2] l2] eqn:Hrep.
    exists r, w2, l2. split; [reflexivity |].
    unfold handler.ReplaceFile. unfold bind at 1, ask at 1.
    rewrite Hid, Hform. cbn [negb].
    unfold bind at 1, try at 1. rewrite Hsniff. rewrite Htype. cbn [negb].
    unfold bind, try. rewrite Hrep.
    destruct r as [url | err]; unfold replace_response.
    + unfold c_JSON, ret. rewrite app_nil_r. reflexivity.
    + destruct (decide (err = service_ErrFileNotFound));
        unfold c_JSON, ret; rewrite app_nil_r; reflexivity.
Qed.

Lemma replace_gate_checks_sniffed_type_only_witness :
  (map_index allowedTypes_replace "image/png" = false →
     handler.ReplaceFile (Scenario2.request_of Scenario.some_uuid Scenario2.tool_exe)
       Scenario.env_ok Scenario.world_record_only
     = (Ok {| status := StatusBadRequest;
              body := ErrorResponse "Unsupported file type" |},
        (handler.detectContentType Scenario2.tool_exe Scenario.env_ok
           Scenario.world_record_only).1.2,
        (handler.detectContentType Scenario2.tool_exe Scenario.env_ok
           Scenario.world_record_only).2)
     ∧ objects (handler.detectContentType Scenario2.tool_exe Scenario.env_ok
                  Scenario.world_record_only).1.2
       = objects Scenario.world_record_only
     ∧ files (handler.detectContentType Scenario2.tool_exe Scenario.env_ok
                Scenario.world_record_only).1.2
       = files Scenario.world_record_only
     ∧ disk (handler.detectContentType Scenario2.tool_exe Scenario.env_ok
               Scenario.world_record_only).1.2
       = disk Scenario.world_record_only
     ∧ List.filter is_store_write
         (handler.detectContentType Scenario2.tool_exe Scenario.env_ok
            Scenario.world_record_only).2 = [])
  ∧ (map_index allowedTypes_replace "image/png" = true →
     ∃ r w2 l2,
       service.ReplaceFile
         (c_Param (Scenario2.request_of Scenario.some_uuid Scenario2.tool_exe) "id")
         Scenario2.tool_exe Scenario.env_ok
         (handler.detectContentType Scenario2.tool_exe Scenario.env_ok
            Scenario.world_record_only).1.2 = (r, w2, l2)
       ∧ handler.ReplaceFile
           (Scenario2.request_of Scenario.some_uuid Scenario2.tool_exe)
           Scenario.env_ok Scenario.world_record_only
         = (Ok (replace_response r), w2,
            ((handler.detectContentType Scenario2.tool_exe Scenario.env_ok
                Scenario.world_record_only).2 ++ l2)%list)).
Proof.
  apply (replace_gate_checks_sniffed_type_only
           (Scenario2.request_of Scenario.some_uuid Scenario2.tool_exe)
           Scenario.env_ok Scenario.world_record_only
           (handler.detectContentType Scenario2.tool_exe Scenario.env_ok
              Scenario.world_record_only).1.2
           Scenario2.tool_exe "image/png"
           (handler.detectContentType Scenario2.tool_exe Scenario.env_ok
              Scenario.world_record_only).2).
  - reflexivity.
  - vm_compute. reflexivity.
  - vm_compute. reflexivity.
Defined.

(** A PNG named [tool.exe] replaces the stored file: the replace handler
    answers 200 and the bucket holds the bytes under [<uuid>.exe]. *)
Example replace_accepts_any_extension :
  (handler.ReplaceFile (Scenario2.request_of Scenario.some_uuid Scenario2.tool_exe)
     Scenario.env_ok Scenario.world_record_only).1.1
  = Ok {| status := 200;
          body := SuccessResponse
                    ("http://localhost:9000/user-uploads/"
                     ++ Scenario.some_uuid ++ ".exe") |}
  ∧ map_index allowedExtensions ".exe" = false.
Proof. split; vm_compute; reflexivity. Qed.

(** X19. Whatever the request and whichever calls fail, the upload handler
    answers 200 with a URL or 400/500 with one of five fixed messages: no
    text of an internal error reaches the response. It answers 200 only
    when a record has been inserted. *)
Theorem upload_handler_answers_are_fixed
    (c : Context) (env : Env) (w w' : World) (r : result Response)
    (tr : list Event) :
  handler.UploadFile c env w = (r, w', tr) →
  ∃ resp,
    r = Ok resp
    ∧ ((status resp = StatusOK
        ∧ (∃ url, body resp = SuccessResponse url)
        ∧ ∃ doc, Ev (CallInsertOne doc) None ∈ tr)
       ∨ ((status resp = StatusBadRequest
           ∨ status resp = StatusInternalServerError)
          ∧ ∃ msg, body resp = ErrorResponse msg
                   ∧ msg ∈ upload_error_messages)).
Proof.
  unfold handler.UploadFile. unfold_ops. red_world.
  walk; intros [= <- <- <-]; eexists; (split; [reflexivity |]); red_world.
  all: first
         [ left; split; [reflexivity |]; split; [by eexists |];
           eexists; cbn; do 8 right; left; reflexivity
         | right; split; [auto |]; eexists; split; [reflexivity |];
           apply (bool_decide_unpack _); vm_compute; exact I ].
Qed.

(** ** The [/api/v1] group *)

(** X20. A request whose [Authorization] header differs from [API_KEY] is
    answered 401 "Unauthorized" on every route, and its handler is not run:
    no call is made and the world is untouched. *)
Theorem wrong_key_is_answered_401_before_the_handler
    (r : Route) (c : Context) (env : Env) (w : World) :
  c_GetHeader c "Authorization" ≠ os_Getenv env "API_KEY" →
  api_v1 r c env w
  = (Ok {| status := 401; body := H [("error", "Unauthorized")] |}, w, []).
Proof.
  intros Hne. unfold api_v1, bind, ask, apiKeyAuth.
  destruct (String.eqb_spec (c_GetHeader c "Authorization")
                            (os_Getenv env "API_KEY")) as [Heq | _];
    [contradiction | reflexivity].
Qed.

Lemma wrong_key_is_answered_401_before_the_handler_witness :
  api_v1 DELETE_files_id (Scenario2.keyed_request "Bearer secure-api-key-123")
    Scenario2.env_keyed Scenario.world_uploaded
  = (Ok {| status := 401; body := H [("error", "Unauthorized")] |},
     Scenario.world_uploaded, []).
Proof.
  apply (wrong_key_is_answered_401_before_the_handler
           DELETE_files_id (Scenario2.keyed_request "Bearer secure-api-key-123")
           Scenario2.env_keyed Scenario.world_uploaded).
  vm_compute. discriminate.
Defined.

(** With the key itself in the header the same request reaches the delete
    handler. *)
Example right_key_reaches_the_handler :
  api_v1 DELETE_files_id (Scenario2.keyed_request "secure-api-key-123")
    Scenario2.env_keyed Scenario.world_uploaded
  = handler.DeleteFile (Scenario2.keyed_request "secure-api-key-123")
      Scenario2.env_keyed Scenario.world_uploaded.
Proof. apply api_v1_Next. reflexivity. Qed.

Lemma upload_handler_answers_are_fixed_witness :
  ∃ resp,
    Scenario.request_upload.1.1 = Ok resp
    ∧ ((status resp = StatusOK
        ∧ (∃ url, body resp = SuccessResponse url)
        ∧ ∃ doc, Ev (CallInsertOne doc) None ∈ Scenario.request_upload.2)
       ∨ ((status resp = StatusBadRequest
           ∨ status resp = StatusInternalServerError)
          ∧ ∃ msg, body resp = ErrorResponse msg
                   ∧ msg ∈ upload_error_messages)).
Proof.
  apply (upload_handler_answers_are_fixed
           Scenario.upload_request Scenario.env_ok Scenario.world_empty
           Scenario.request_upload.1.2 Scenario.request_upload.1.1
           Scenario.request_upload.2).
  vm_compute. reflexivity.
Defined.

(** ** NewMinioRepository *)

Import minio_init.

Lemma wait_ready_returns (env : InitEnv) (b : string) (k : nat) :
  ∀ fuel pass n,
    ctx_Done_at env (pass + k)%nat = true →
    (k < fuel)%nat →
    ∃ res, wait_ready fuel env b pass n = Some res.
Proof.
  induction k as [| k IH]; intros fuel pass n Hdone Hfuel.
  - destruct fuel as [| fuel]; [lia |]. cbn.
    replace (pass + 0)%nat with pass in Hdone by lia. rewrite Hdone. eauto.
  - destruct fuel as [| fuel]; [lia |]. cbn.
    destruct (ctx_Done_at env pass); [eauto |].
    destruct (BucketExists_at env n) as [[] [e |]]; eauto.
    all: destruct (IH fuel (S pass) (S n)) as [[r l] ->];
      [ by replace (S pass + k)%nat with (pass + S k)%nat by lia | lia | eauto ].
Qed.

Lemma wait_ready_more_fuel (env : InitEnv) (b : string) (fuel : nat) :
  ∀ fuel' pass n res,
    wait_ready fuel env b pass n = Some res →
    (fuel ≤ fuel')%nat →
    wait_ready fuel' env b pass n = Some res.
Proof.
  induction fuel as [| fuel IH]; intros fuel' pass n res; cbn; [discriminate |].
  intros Hrun Hle. destruct fuel' as [| fuel']; [lia |]. cbn.
  destruct (ctx_Done_at env pass); [exact Hrun |].
  destruct (BucketExists_at env n) as [[] [e |]]; try exact Hrun.
  all: destruct (wait_ready fuel env b (S pass) (S n)) as [[r l] |] eqn:Hrec;
    [| discriminate].
  all: rewrite (IH fuel' (S pass) (S n) (r, l) Hrec); [exact Hrun | lia].
Qed.

Lemma wait_ready_Ok (env : InitEnv) (b : string) (fuel : nat) :
  ∀ pass n repo l,
    wait_ready fuel env b pass n = Some (inr repo, l) →
    repo_Bucket repo = b
    ∧ ∃ m, last l = Some (CallBucketExists m)
           ∧ BucketExists_at env m = (true, None)
           ∧ (n ≤ m)%nat.
Proof.
  induction fuel as [| fuel IH]; intros pass n repo l; cbn; [discriminate |].
  destruct (ctx_Done_at env pass); [discriminate |].
  destruct (BucketExists_at env n) as [[] [e |]] eqn:Hn.
  2: { intros [= <- <-]. split; [reflexivity |]. exists n. auto. }
  all: destruct (wait_ready fuel env b (S pass) (S n)) as [[r l'] |] eqn:Hrec;
    [| discriminate].
  all: intros [= -> <-].
  all: destruct (IH _ _ _ _ Hrec) as (Hb & m & Hlast & Hm & Hle).
  all: split; [exact Hb |]; exists m.
  all: split; [| split; [exact Hm | lia]].
  all: destruct l' as [| x l']; [discriminate Hlast | exact Hlast].
Qed.

Lemma wait_ready_log (env : InitEnv) (b : string) (fuel : nat) :
  ∀ pass n res l,
    wait_ready fuel env b pass n = Some (res, l) →
    CallMakeBucket ∉ l.
Proof.
  induction fuel as [| fuel IH]; intros pass n res l; cbn; [discriminate |].
  destruct (ctx_Done_at env pass).
  { intros [= <- <-]. apply not_elem_of_nil. }
  destruct (BucketExists_at env n) as [[] [e |]].
  2: { intros [= <- <-]. intros Hin. log_cases Hin. }
  all: destruct (wait_ready fuel env b (S pass) (S n)) as [[r l'] |] eqn:Hrec;
    [| discriminate].
  all: intros [= <- <-]; intros Hin.
  all: apply elem_of_cons in Hin as [Hin | Hin]; [discriminate |].
  all: apply elem_of_cons in Hin as [Hin | Hin]; [discriminate |].
  all: exact (IH _ _ _ _ Hrec Hin).
Qed.

(** X21. [NewMinioRepository] returns: once the context is done at some
    pass of the readiness loop, the function has returned by then, and more
    passes would not change what it returned. *)
Theorem NewMinioRepository_returns_once_the_context_is_done
    (env : InitEnv) (bucketName : string) (k fuel : nat) :
  ctx_Done_at env k = true →
  (k < fuel)%nat →
  ∃ res,
    NewMinioRepository fuel env bucketName = Some res
    ∧ ∀ fuel', (fuel ≤ fuel')%nat →
               NewMinioRepository fuel' env bucketName = Some res.
Proof.
  intros Hdone Hfuel. unfold NewMinioRepository.
  destruct (minio_New_err env); [eauto |].
  destruct (BucketExists_at env 0) as [ex [e |]]; [eauto |].
  destruct (wait_ready_returns env bucketName k fuel 0 1 Hdone Hfuel)
    as [[r l] Hrun].
  assert (Hmore : ∀ fuel', (fuel ≤ fuel')%nat →
                    wait_ready fuel' env bucketName 0 1 = Some (r, l)).
  { intros fuel' Hle. by apply (wait_ready_more_fuel env bucketName fuel). }
  destruct ex; cbn [negb].
  - rewrite Hrun. eexists. split; [reflexivity |].
    intros fuel' Hle. by rewrite (Hmore fuel' Hle).
  - destruct (MakeBucket_err env); [eauto |].
    rewrite Hrun. eexists. split; [reflexivity |].
    intros fuel' Hle. by rewrite (Hmore fuel' Hle).
Qed.

Lemma NewMinioRepository_returns_once_the_context_is_done_witness :
  ∃ res,
    NewMinioRepository 6 Scenario2.no_bucket "user-uploads" = Some res
    ∧ ∀ fuel', (6 ≤ fuel')%nat →
               NewMinioRepository fuel' Scenario2.no_bucket "user-uploads" = Some res.
Proof.
  apply (NewMinioRepository_returns_once_the_context_is_done
           Scenario2.no_bucket "user-uploads" 5 6).
  - reflexivity.
  - lia.
Defined.

(** X22. [NewMinioRepository] hands out a repository only for a bucket the
    server has confirmed in the readiness loop: its last call is a
    [BucketExists], not the first one, that answered "exists" without
    error; the repository carries the bucket name it was given. *)
Theorem NewMinioRepository_gives_repository_only_for_confirmed_bucket
    (env : InitEnv) (bucketName : string) (fuel : nat)
    (repo : MinioRepository) (log : list InitCall) :
  NewMinioRepository fuel env bucketName = Some (inr repo, log) →
  repo_Bucket repo = bucketName
  ∧ minio_New_err env = None
  ∧ ∃ m, last log = Some (CallBucketExists m)
         ∧ BucketExists_at env m = (true, None)
         ∧ (1 ≤ m)%nat.
Proof.
  unfold NewMinioRepository.
  destruct (minio_New_err env); [discriminate |].
  destruct (BucketExists_at env 0) as [ex [e |]]; [discriminate |].
  destruct ex; cbn [negb].
  - destruct (wait_ready fuel env bucketName 0 1) as [[r l] |] eqn:Hrun;
      [| discriminate].
    intros [= -> <-].
    destruct (wait_ready_Ok _ _ _ _ _ _ _ Hrun) as (Hb & m & Hlast & Hm & Hle).
    split; [exact Hb |]. split; [reflexivity |]. exists m.
    split; [| split; [exact Hm | exact Hle]].
    destruct l as [| x l]; [discriminate Hlast | exact Hlast].
  - destruct (MakeBucket_err env); [discriminate |].
    destruct (wait_ready fuel env bucketName 0 1) as [[r l] |] eqn:Hrun;
      [| discriminate].
    intros [= -> <-].
    destruct (wait_ready_Ok _ _ _ _ _ _ _ Hrun) as (Hb & m & Hlast & Hm & Hle).
    split; [exact Hb |]. split; [reflexivity |]. exists m.
    split; [| split; [exact Hm | exact Hle]].
    destruct l as [| x l]; [discriminate Hlast | exact Hlast].
Qed.

Lemma NewMinioRepository_gives_repository_only_for_confirmed_bucket_witness :
  repo_Bucket {| repo_Bucket := "user-uploads" |} = "user-uploads"
  ∧ minio_New_err Scenario2.slow_bucket = None
  ∧ ∃ m, last [CallNew; CallBucketExists 0; CallMakeBucket;
               CallBucketExists 1; CallSleep; CallBucketExists 2]
         = Some (CallBucketExists m)
         ∧ BucketExists_at Scenario2.slow_bucket m = (true, None)
         ∧ (1 ≤ m)%nat.
Proof.
  apply (NewMinioRepository_gives_repository_only_for_confirmed_bucket
           Scenario2.slow_bucket "user-uploads" 6
           {| repo_Bucket := "user-uploads" |}
           [CallNew; CallBucketExists 0; CallMakeBucket;
            CallBucketExists 1; CallSleep; CallBucketExists 2]).
  reflexivity.
Defined.

(** X23. [NewMinioRepository] calls [MakeBucket] exactly when the first
    [BucketExists] answered "absent" without error; when [MakeBucket] then
    fails, the result is [ErrBucketNotCreated], whatever the cause was, and
    the readiness loop is not entered. *)
Theorem NewMinioRepository_creates_bucket_only_when_absent
    (env : InitEnv) (bucketName : string) (fuel : nat)
    (res : init_error + MinioRepository) (log : list InitCall) :
  NewMinioRepository fuel env bucketName = Some (res, log) →
  (CallMakeBucket ∈ log ↔
   minio_New_err env = None ∧ BucketExists_at env 0 = (false, None))
  ∧ (CallMakeBucket ∈ log → is_Some (MakeBucket_err env) →
     res = inl ErrBucketNotCreated
     ∧ log = [CallNew; CallBucketExists 0; CallMakeBucket]).
Proof.
  unfold NewMinioRepository.
  destruct (minio_New_err env).
  { intros [= <- <-]. split.
    - split; [intros Hin; log_cases Hin | intros [? _]; discriminate].
    - intros Hin. log_cases Hin. }
  destruct (BucketExists_at env 0) as [ex [e |]].
  { intros [= <- <-]. split.
    - split; [intros Hin; log_cases Hin | intros [_ ?]; discriminate].
    - intros Hin. log_cases Hin. }
  destruct ex; cbn [negb].
  - destruct (wait_ready fuel env bucketName 0 1) as [[r l] |] eqn:Hrun;
      [| discriminate].
    intros [= <- <-]. pose proof (wait_ready_log _ _ _ _ _ _ _ Hrun) as Hno.
    assert (Hnot : CallMakeBucket ∉ CallNew :: CallBucketExists 0 :: l).
    { intros Hin. apply elem_of_cons in Hin as [Hin | Hin]; [discriminate |].
      apply elem_of_cons in Hin as [Hin | Hin]; [discriminate | contradiction]. }
    split; [split; [contradiction | intros [_ ?]; discriminate] | contradiction].
  - destruct (MakeBucket_err env) as [cause |].
    + intros [= <- <-]. split.
      * split; [auto |]. intros _. do 2 right. left.
      * auto.
    + destruct (wait_ready fuel env bucketName 0 1) as [[r l] |] eqn:Hrun;
        [| discriminate].
      intros [= <- <-]. split.
      * split; [auto |]. intros _. do 2 right. left.
      * intros _ [? ?]. discriminate.
Qed.

Lemma NewMinioRepository_creates_bucket_only_when_absent_witness :
  (CallMakeBucket ∈ [CallNew; CallBucketExists 0; CallMakeBucket] ↔
   minio_New_err Scenario2.refusing = None
   ∧ BucketExists_at Scenario2.refusing 0 = (false, None))
  ∧ (CallMakeBucket ∈ [CallNew; CallBucketExists 0; CallMakeBucket] →
     is_Some (MakeBucket_err Scenario2.refusing) →
     @inl init_error MinioRepository ErrBucketNotCreated = inl ErrBucketNotCreated
     ∧ [CallNew; CallBucketExists 0; CallMakeBucket]
       = [CallNew; CallBucketExists 0; CallMakeBucket]).
Proof.
  apply (NewMinioRepository_creates_bucket_only_when_absent
           Scenario2.refusing "user-uploads" 6
           (inl ErrBucketNotCreated)
           [CallNew; CallBucketExists 0; CallMakeBucket]).
  reflexivity.
Defined.

(** A bucket that never appears: the loop polls until the context is done
    and the function returns the readiness timeout. *)
Example NewMinioRepository_times_out :
  NewMinioRepository 6 Scenario2.no_bucket "user-uploads"
  = Some (inl readiness_timeout,
          [CallNew; CallBucketExists 0; CallMakeBucket;
           CallBucketExists 1; CallSleep; CallBucketExists 2; CallSleep;
           CallBucketExists 3; CallSleep; CallBucketExists 4; CallSleep;
           CallBucketExists 5; CallSleep]).
Proof. reflexivity. Qed.

(** ** Further properties of sniffing, delete and get *)

(** X24. [detectContentType] looks at no more than the first 512 bytes:
    two parts with the same filename whose first 512 bytes agree get the
    same outcome, whatever follows. *)
Theorem detectContentType_depends_on_first_512_bytes
    (f1 f2 : FileHeader) (env : Env) (w : World) :
  Filename f1 = Filename f2 →
  take 512 (content f1) = take 512 (content f2) →
  handler.detectContentType f1 env w = handler.detectContentType f2 env w.
Proof.
  intros Hname Htake. unfold_ops. red_world. rewrite Hname, Htake.
  destruct (content f1) as [| b1 l1] eqn:H1;
    destruct (content f2) as [| b2 l2] eqn:H2;
    try discriminate Htake; reflexivity.
Qed.

Lemma detectContentType_depends_on_first_512_bytes_witness :
  handler.detectContentType Scenario.photo_jpg Scenario.env_ok Scenario.world_empty
  = handler.detectContentType
      {| Filename := "photo.jpg"; Header := ∅; Size := 0;
         content := Scenario.png_magic |}
      Scenario.env_ok Scenario.world_empty.
Proof.
  apply (detectContentType_depends_on_first_512_bytes
           Scenario.photo_jpg
           {| Filename := "photo.jpg"; Header := ∅; Size := 0;
              content := Scenario.png_magic |}
           Scenario.env_ok Scenario.world_empty); reflexivity.
Defined.

(** X25. [DeleteFile] only removes: whatever it returns, the disk is as
    before, every record other than [fileID] is untouched, and every object
    and record present afterwards was present before. *)
Theorem delete_only_removes
    (fileID : string) (env : Env) (w w' : World) (r : result unit)
    (tr : list Event) :
  service.DeleteFile fileID env w = (r, w', tr) →
  disk w' = disk w
  ∧ (∀ k, k ≠ fileID → files w' !! k = files w !! k)
  ∧ (∀ k md, files w' !! k = Some md → files w !! k = Some md)
  ∧ (∀ k o, objects w' !! k = Some o → objects w !! k = Some o).
Proof.
  unfold_ops. red_world.
  walk; intros [= <- <- <-]; red_world.
  all: split; [reflexivity |].
  all: split; [intros k Hk; rewrite ?lookup_delete_ne by congruence; reflexivity |].
  all: split; intros k x; rewrite ?lookup_delete_Some; tauto.
Qed.

Lemma delete_only_removes_witness :
  disk Scenario.delete_uploaded.1.2 = disk Scenario.world_uploaded
  ∧ (∀ k, k ≠ Scenario.some_uuid →
          files Scenario.delete_uploaded.1.2 !! k = files Scenario.world_uploaded !! k)
  ∧ (∀ k md, files Scenario.delete_uploaded.1.2 !! k = Some md →
             files Scenario.world_uploaded !! k = Some md)
  ∧ (∀ k o, objects Scenario.delete_uploaded.1.2 !! k = Some o →
            objects Scenario.world_uploaded !! k = Some o).
Proof.
  apply (delete_only_removes
           Scenario.some_uuid Scenario.env_ok Scenario.world_uploaded
           Scenario.delete_uploaded.1.2 Scenario.delete_uploaded.1.1
           Scenario.delete_uploaded.2).
  vm_compute. reflexivity.
Defined.

(** X26. The delete handler answers 200, 400 or 500 and nothing else, in
    particular never 404; a 200 means that the record is gone, and the body
    then names the identifier. *)
Theorem delete_handler_answers
    (c : Context) (env : Env) (w w' : World) (r : result Response)
    (tr : list Event) :
  handler.DeleteFile c env w = (r, w', tr) →
  ∃ resp,
    r = Ok resp
    ∧ (status resp = StatusOK ∨ status resp = StatusBadRequest
       ∨ status resp = StatusInternalServerError)
    ∧ (status resp = StatusOK →
       files w' !! c_Param c "id" = None
       ∧ body resp = SuccessResponse ("File " ++ c_Param c "id" ++ " deleted")).
Proof.
  unfold handler.DeleteFile. unfold_ops. red_world.
  walk; intros [= <- <- <-]; red_world.
  all: try done.
  all: eexists; split; [reflexivity |]; red_world.
  all: split; [auto |].
  all: first [ by intros [=]
             | intros _; split; [apply lookup_delete_eq | reflexivity] ].
Qed.

Lemma delete_handler_answers_witness :
  ∃ resp,
    (handler.DeleteFile Scenario.id_request Scenario.env_ok
       Scenario.world_uploaded).1.1 = Ok resp
    ∧ (status resp = StatusOK ∨ status resp = StatusBadRequest
       ∨ status resp = StatusInternalServerError)
    ∧ (status resp = StatusOK →
       files (handler.DeleteFile Scenario.id_request Scenario.env_ok
                Scenario.world_uploaded).1.2 !! c_Param Scenario.id_request "id" = None
       ∧ body resp
         = SuccessResponse ("File " ++ c_Param Scenario.id_request "id" ++ " deleted")).
Proof.
  apply (delete_handler_answers
           Scenario.id_request Scenario.env_ok Scenario.world_uploaded
           (handler.DeleteFile Scenario.id_request Scenario.env_ok
              Scenario.world_uploaded).1.2
           (handler.DeleteFile Scenario.id_request Scenario.env_ok
              Scenario.world_uploaded).1.1
           (handler.DeleteFile Scenario.id_request Scenario.env_ok
              Scenario.world_uploaded).2).
  vm_compute. reflexivity.
Defined.

(** X27. A 200 from the get handler carries the record stored under the
    requested identifier, and the handler has changed nothing. *)
Theorem get_handler_200_carries_the_stored_record
    (c : Context) (env : Env) (w w' : World) (resp : Response) (tr : list Event) :
  handler.GetFileMetadata c env w = (Ok resp, w', tr) →
  status resp = StatusOK →
  uuid_Parse env (c_Param c "id") = true
  ∧ (∃ md, body resp = MetadataJSON md ∧ files w !! c_Param c "id" = Some md)
  ∧ objects w' = objects w ∧ files w' = files w ∧ disk w' = disk w.
Proof.
  intros Hrun Hst. revert Hrun.
  unfold handler.GetFileMetadata. unfold_ops. red_world.
  walk; intros [= <- <- <-]; try discriminate Hst; red_world.
  split; [reflexivity |]. split; [by eexists |]. auto.
Qed.

Lemma get_handler_200_carries_the_stored_record_witness :
  uuid_Parse Scenario.env_ok (c_Param Scenario.id_request "id") = true
  ∧ (∃ md, MetadataJSON Scenario.record_only = MetadataJSON md
           ∧ files Scenario.world_record_only !! c_Param Scenario.id_request "id"
             = Some md)
  ∧ objects (set_tick 1 Scenario.world_record_only) = objects Scenario.world_record_only
  ∧ files (set_tick 1 Scenario.world_record_only) = files Scenario.world_record_only
  ∧ disk (set_tick 1 Scenario.world_record_only) = disk Scenario.world_record_only.
Proof.
  apply (get_handler_200_carries_the_stored_record
           Scenario.id_request Scenario.env_ok Scenario.world_record_only
           (set_tick 1 Scenario.world_record_only)
           {| status := StatusOK; body := MetadataJSON Scenario.record_only |}
           [Ev (CallFindOne Scenario.some_uuid) None]).
  - vm_compute. reflexivity.
  - reflexivity.
Defined.
